(** * Overture datastore: Store and WindowedQuery

    A shallow embedding of the record store (source/datastore/store/Store.js)
    and of the windowed remote query (source/datastore/query/WindowedQuery.js),
    with the properties of the specification stated over it.

    Conventions.
    - JavaScript numbers that are used as indexes, lengths and bit masks are
      integers ([Z]); the bitwise operators are [Z.land], [Z.lor], [Z.lnot].
    - Store keys, ids, state tokens and attribute names are strings; the empty
      string is the only falsy one.
    - A JavaScript object that is enumerated with [for .. in] is an association
      list in insertion order ([JsObject]); tables that are only read by key
      are [gmap]s.
    - Calls that leave the object (the source, the run loop, observers, the
      diagnostic channel) are appended to an event log carried by the state. *)

From Stdlib Require Import ZArith Bool Lia.
From stdpp Require Import gmap strings list fin_maps pretty sorting.

Local Open Scope Z_scope.

(** ** Results of calls that can throw *)

Inductive result (A : Type) : Type :=
  | Ok (a : A)
  | Throw (msg : string)
  | OutOfFuel.
Arguments Ok {A} a.
Arguments Throw {A} msg.
Arguments OutOfFuel {A}.

#[global] Instance result_ret : MRet result := fun A a => Ok a.
#[global] Instance result_bind : MBind result := fun A B k r =>
  match r with
  | Ok a => k a
  | Throw m => Throw m
  | OutOfFuel => OutOfFuel
  end.

(** ** Status bits (source/datastore/record/Status.js) *)

Module Status.

(** Modelled from the spec: Status.js is not part of the sources; the bits are
    the nine distinct flags of the status table, in the order of that table. *)
Definition EMPTY : Z := 1.
Definition READY : Z := 2.
Definition DESTROYED : Z := 4.
Definition NON_EXISTENT : Z := 8.
Definition LOADING : Z := 16.
Definition COMMITTING : Z := 32.
Definition NEW : Z := 64.
Definition DIRTY : Z := 128.
Definition OBSOLETE : Z := 256.

(** [status & mask] used as a condition. *)
Definition has (status mask : Z) : bool := negb (Z.land status mask =? 0).

(** [status & ~mask] *)
Definition clear (status mask : Z) : Z := Z.land status (Z.lnot mask).

End Status.

(** ** JavaScript arrays *)

Module JsArray.

Section Generic.
Context {A : Type}.

(** [a[i]], [None] standing for [undefined]. *)
Definition nth (a : list A) (i : Z) : option A :=
  if i <? 0 then None else a !! Z.to_nat i.

Definition len (a : list A) : Z := Z.of_nat (length a).

(** The start position [splice] computes from its first argument. *)
Definition spliceStart (a : list A) (start : Z) : nat :=
  if start <? 0 then Z.to_nat (Z.max (len a + start) 0)
  else Z.to_nat (Z.min start (len a)).

(** [a.splice(start, 1)] *)
Definition spliceRemove (a : list A) (start : Z) : list A :=
  let s := spliceStart a start in take s a ++ drop (S s) a.

(** [a.splice(start, 0, x)] *)
Definition spliceInsert (a : list A) (start : Z) (x : A) : list A :=
  let s := spliceStart a start in take s a ++ x :: drop s a.

(** [a[i] = x]; an index past the end grows the array, the new slots in
    between being [hole]. A negative index names a property that is not an
    element, so the elements are unchanged. *)
Definition assign (hole : A) (a : list A) (i : Z) (x : A) : list A :=
  if i <? 0 then a
  else
    let n := Z.to_nat i in
    if decide (n < length a)%nat then <[n := x]> a
    else a ++ replicate (n - length a)%nat hole ++ [x].

(** [a.length = n] for [0 <= n]. *)
Definition setLength (hole : A) (a : list A) (n : Z) : list A :=
  let k := Z.to_nat n in
  take k a ++ replicate (k - length a)%nat hole.

End Generic.

Section Eq.
Context {A : Type} `{EqDecision A}.

(** [a.indexOf(x)] *)
Fixpoint indexOfFrom (a : list A) (x : A) (i : Z) : Z :=
  match a with
  | [] => -1
  | y :: a' => if decide (y = x) then i else indexOfFrom a' x (i + 1)
  end.

Definition indexOf (a : list A) (x : A) : Z := indexOfFrom a x 0.

(** [a.lastIndexOf(x)] *)
Fixpoint lastIndexOfFrom (a : list A) (x : A) (i : Z) (found : Z) : Z :=
  match a with
  | [] => found
  | y :: a' =>
      lastIndexOfFrom a' x (i + 1) (if decide (y = x) then i else found)
  end.

Definition lastIndexOf (a : list A) (x : A) : Z := lastIndexOfFrom a x 0 (-1).

(** [isEqual] of core/Core.js on two arrays of primitives. *)
Definition isEqual (a b : list A) : bool := bool_decide (a = b).

End Eq.

(** Modelled from the spec: Array#binarySearch (core/Array.js is not part of
    the sources). On an ascending array it returns the position at which the
    value is, or would be inserted: the number of entries below it ("the
    number of earlier additions at lower indexes"). *)
Definition binarySearch (a : list Z) (v : Z) : Z :=
  len (filter (fun x => x < v) a).

(** [~~Math.log(n)] for an array length [n]: the number of powers [e^k],
    [1 <= k], that are at most [n]. The table lists the least integers above
    [e^1 .. e^22]; lengths stay below [2^32 < e^23]. *)
Definition logThresholds : list Z :=
  [3; 8; 21; 55; 149; 404; 1097; 2981; 8104; 22027; 59875; 162755; 442414;
   1202605; 3269018; 8886111; 24154953; 65659970; 178482301; 485165196;
   1318815735; 3584912847].

Definition floorLog (n : Z) : Z := len (filter (fun t => t <= n) logThresholds).

End JsArray.

(** ** WindowedQuery: the update algebra *)

Module WindowedQuery.
Import JsArray.

Definition StoreKey := string.
Definition Id := string.

Definition WINDOW_EMPTY : Z := 0.
Definition WINDOW_REQUESTED : Z := 1.
Definition WINDOW_LOADING : Z := 2.
Definition WINDOW_READY : Z := 4.
Definition WINDOW_RECORDS_REQUESTED : Z := 8.
Definition WINDOW_RECORDS_LOADING : Z := 16.
Definition WINDOW_RECORDS_READY : Z := 32.

(** The list of store keys is sparse: [None] is a slot that was never
    assigned. A slot is truthy when it holds a non-empty store key. *)
Definition isSet (slot : option (option StoreKey)) : bool :=
  match slot with
  | Some (Some sk) => negb (bool_decide (sk = ""))
  | _ => false
  end.

(** Two linked arrays are kept as they are in the source, side by side; the
    functions that walk them pairwise zip them first (they are built pairwise
    everywhere, so they have the same length). *)
Fixpoint insertLinked (x : Z * StoreKey) (l : list (Z * StoreKey))
  : list (Z * StoreKey) :=
  match l with
  | [] => [x]
  | y :: l' => if x.1 <=? y.1 then x :: l else y :: insertLinked x l'
  end.

(** [sortLinkedArrays]: a stable sort on the first array, the second array
    following. *)
Definition sortLinkedArrays (a1 : list Z) (a2 : list StoreKey)
  : list Z * list StoreKey :=
  let zipped := foldr insertLinked [] (zip a1 a2) in
  (zipped.*1, zipped.*2).

(** The [indexOf] object that [mapIndexes] builds: the last position of every
    truthy entry. *)
Fixpoint buildIndexOf (slots : list (option StoreKey)) (i : Z)
  (indexOf : gmap StoreKey Z) : gmap StoreKey Z :=
  match slots with
  | [] => indexOf
  | slot :: rest =>
      buildIndexOf rest (i + 1)
        (match slot with
         | Some id => if bool_decide (id = "") then indexOf
                      else <[id := i]> indexOf
         | None => indexOf
         end)
  end.

Definition mapIndexes (slots : list (option StoreKey))
  (storeKeys : list StoreKey) : list Z :=
  if len storeKeys <? floorLog (len slots) + 1 then
    (fun sk => indexOf slots (Some sk)) <$> storeKeys
  else
    let indexOf := buildIndexOf slots 0 ∅ in
    (fun sk => default (-1) (indexOf !! sk)) <$> storeKeys.

(** [mergeSortedLinkedArrays (a1, a2, b1, b2)] on the zipped pairs [(a1, b1)]
    and [(a2, b2)]: the head of the first is taken when it is strictly below
    the head of the second. *)
Fixpoint mergeSortedLinkedArrays (l1 : list (Z * StoreKey))
  : list (Z * StoreKey) -> list (Z * StoreKey) :=
  fix inner (l2 : list (Z * StoreKey)) : list (Z * StoreKey) :=
    match l1, l2 with
    | [], _ => l2
    | _, [] => l1
    | x :: l1', y :: l2' =>
        if x.1 <? y.1 then x :: mergeSortedLinkedArrays l1' l2
        else y :: inner l2'
    end.

(** The loop of [adjustIndexes] under the outer [for]: the index grows by one
    for each leading entry of [removedBefore] that is at most the index. *)
Fixpoint bumpPast (removedBefore : list Z) (index : Z) : Z :=
  match removedBefore with
  | [] => index
  | r :: rest => if index >=? r then bumpPast rest (index + 1) else index
  end.

Definition adjustIndexes (removed added removedBefore : list Z)
  (storeKeys removedBeforeStoreKeys : list StoreKey)
  : list Z * list StoreKey :=
  let result :=
    omap (fun '(index, storeKey) =>
            let position := binarySearch added index in
            if bool_decide (nth added position = Some index) then None
            else Some (bumpPast removedBefore (index - position), storeKey))
         (zip removed storeKeys) in
  let merged :=
    mergeSortedLinkedArrays (zip removedBefore removedBeforeStoreKeys) result in
  (merged.*1, merged.*2).

(** A normalised update, as built by [_normaliseUpdate]. *)
Record Update : Type := mkUpdate {
  removedIndexes : list Z;
  removedStoreKeys : list StoreKey;
  addedIndexes : list Z;
  addedStoreKeys : list StoreKey;
  truncateAtFirstGap : bool;
  total : Z;
  upToId : option StoreKey
}.

Definition composeUpdates (u1 u2 : Update) : Update :=
  let removed :=
    adjustIndexes (removedIndexes u2) (addedIndexes u1) (removedIndexes u1)
      (removedStoreKeys u2) (removedStoreKeys u1) in
  let added :=
    adjustIndexes (addedIndexes u1) (removedIndexes u2) (addedIndexes u2)
      (addedStoreKeys u1) (addedStoreKeys u2) in
  {| removedIndexes := removed.1;
     removedStoreKeys := removed.2;
     addedIndexes := added.1;
     addedStoreKeys := added.2;
     truncateAtFirstGap := truncateAtFirstGap u1 || truncateAtFirstGap u2;
     total := total u2;
     upToId := upToId u2 |}.

(** [invertUpdate]: the two pairs of arrays are exchanged on the object, then
    [total] is adjusted with the lengths read after the exchange. *)
Definition invertUpdate (u : Update) : Update :=
  let removedIndexes' := addedIndexes u in
  let addedIndexes' := removedIndexes u in
  let removedStoreKeys' := addedStoreKeys u in
  let addedStoreKeys' := removedStoreKeys u in
  {| removedIndexes := removedIndexes';
     removedStoreKeys := removedStoreKeys';
     addedIndexes := addedIndexes';
     addedStoreKeys := addedStoreKeys';
     truncateAtFirstGap := truncateAtFirstGap u;
     total := total u + len addedStoreKeys' - len removedStoreKeys';
     upToId := upToId u |}.

Definition updateIsEqual (u1 u2 : Update) : bool :=
  bool_decide (total u1 = total u2) &&
  isEqual (addedIndexes u1) (addedIndexes u2) &&
  isEqual (addedStoreKeys u1) (addedStoreKeys u2) &&
  isEqual (removedIndexes u1) (removedIndexes u2) &&
  isEqual (removedStoreKeys u1) (removedStoreKeys u2).

(** [preemptives.reduce(composeUpdates)]; on an empty array [reduce] throws. *)
Definition reduceCompose (preemptives : list Update) : result Update :=
  match preemptives with
  | [] => Throw "TypeError: Reduce of empty array with no initial value"
  | p :: rest => Ok (foldl composeUpdates p rest)
  end.

(** ** WindowedQuery: the query object *)

(** The argument of [clientDidGenerateUpdate] and of [_normaliseUpdate]:
    store keys to remove and [{index, storeKey}] pairs to add. *)
Record RawUpdate : Type := mkRawUpdate {
  removed : list StoreKey;
  added : list (Z * StoreKey);
  rawTotal : option Z;
  rawUpToId : option StoreKey
}.

(** The argument of [sourceDidFetchUpdate]. The delta carries its [total], as
    in the packet shape of the specification. *)
Record Delta : Type := mkDelta {
  oldQueryState : string;
  newQueryState : string;
  deltaRemoved : list Id;
  deltaAdded : list (Z * Id);
  deltaUpToId : option Id;
  deltaTotal : Z
}.

(** The argument of [sourceDidFetchIds]. *)
Record Packet : Type := mkPacket {
  packetQueryState : string;
  position : Z;
  ids : list Id;
  packetTotal : Z
}.

(** The range of a range observer; either bound may be missing. *)
Record Range : Type := mkRange {
  rangeStart : option Z;
  rangeEnd : option Z
}.

Inductive Event : Type :=
  | RangeDidChange (first : Z) (last : Z)
  | QueryUpdated (removed : list StoreKey) (removedIndexes : list Z)
      (added : list StoreKey) (addedIndexes : list Z)
  | IdsLoaded
  | SourceFetchQuery
  | QueryFetch.

Record Query : Type := mkQuery {
  windowSize : Z;
  prefetch : Z;
  canGetDeltaUpdates : bool;
  rangeObservers : list Range;
  storeKeys : list (option StoreKey);
  windows : list Z;
  queryState : string;
  status : Z;
  queryLength : option Z;
  preemptiveUpdates : list Update;
  waitingPackets : list Packet;
  indexOfRequested : list Id;
  isAnExplicitIdFetch : bool;
  events : list Event
}.

Definition set_storeKeys (v : list (option StoreKey)) (q : Query) : Query :=
  mkQuery (windowSize q) (prefetch q) (canGetDeltaUpdates q) (rangeObservers q)
    v (windows q) (queryState q) (status q) (queryLength q)
    (preemptiveUpdates q) (waitingPackets q) (indexOfRequested q)
    (isAnExplicitIdFetch q) (events q).

Definition set_windows (v : list Z) (q : Query) : Query :=
  mkQuery (windowSize q) (prefetch q) (canGetDeltaUpdates q) (rangeObservers q)
    (storeKeys q) v (queryState q) (status q) (queryLength q)
    (preemptiveUpdates q) (waitingPackets q) (indexOfRequested q)
    (isAnExplicitIdFetch q) (events q).

Definition set_queryState (v : string) (q : Query) : Query :=
  mkQuery (windowSize q) (prefetch q) (canGetDeltaUpdates q) (rangeObservers q)
    (storeKeys q) (windows q) v (status q) (queryLength q)
    (preemptiveUpdates q) (waitingPackets q) (indexOfRequested q)
    (isAnExplicitIdFetch q) (events q).

Definition set_status (v : Z) (q : Query) : Query :=
  mkQuery (windowSize q) (prefetch q) (canGetDeltaUpdates q) (rangeObservers q)
    (storeKeys q) (windows q) (queryState q) v (queryLength q)
    (preemptiveUpdates q) (waitingPackets q) (indexOfRequested q)
    (isAnExplicitIdFetch q) (events q).

Definition set_queryLength (v : option Z) (q : Query) : Query :=
  mkQuery (windowSize q) (prefetch q) (canGetDeltaUpdates q) (rangeObservers q)
    (storeKeys q) (windows q) (queryState q) (status q) v
    (preemptiveUpdates q) (waitingPackets q) (indexOfRequested q)
    (isAnExplicitIdFetch q) (events q).

Definition set_preemptiveUpdates (v : list Update) (q : Query) : Query :=
  mkQuery (windowSize q) (prefetch q) (canGetDeltaUpdates q) (rangeObservers q)
    (storeKeys q) (windows q) (queryState q) (status q) (queryLength q)
    v (waitingPackets q) (indexOfRequested q)
    (isAnExplicitIdFetch q) (events q).

Definition set_waitingPackets (v : list Packet) (q : Query) : Query :=
  mkQuery (windowSize q) (prefetch q) (canGetDeltaUpdates q) (rangeObservers q)
    (storeKeys q) (windows q) (queryState q) (status q) (queryLength q)
    (preemptiveUpdates q) v (indexOfRequested q)
    (isAnExplicitIdFetch q) (events q).

Definition set_indexOfRequested (v : list Id) (q : Query) : Query :=
  mkQuery (windowSize q) (prefetch q) (canGetDeltaUpdates q) (rangeObservers q)
    (storeKeys q) (windows q) (queryState q) (status q) (queryLength q)
    (preemptiveUpdates q) (waitingPackets q) v
    (isAnExplicitIdFetch q) (events q).

Definition set_isAnExplicitIdFetch (v : bool) (q : Query) : Query :=
  mkQuery (windowSize q) (prefetch q) (canGetDeltaUpdates q) (rangeObservers q)
    (storeKeys q) (windows q) (queryState q) (status q) (queryLength q)
    (preemptiveUpdates q) (waitingPackets q) (indexOfRequested q)
    v (events q).

(** An outside call or notification is recorded at the end of the log. *)
Definition emit (e : Event) (q : Query) : Query :=
  mkQuery (windowSize q) (prefetch q) (canGetDeltaUpdates q) (rangeObservers q)
    (storeKeys q) (windows q) (queryState q) (status q) (queryLength q)
    (preemptiveUpdates q) (waitingPackets q) (indexOfRequested q)
    (isAnExplicitIdFetch q) (events q ++ [e]).

(** [this.get('length')] where a number is needed: [null] counts as 0. *)
Definition lengthOrZero (q : Query) : Z := default 0 (queryLength q).

(** [windowCount]: [null] while the length is. *)
Definition windowCount (q : Query) : option Z :=
  (fun length => (length - 1) / windowSize q + 1) <$> queryLength q.

(** Modelled from the spec: [setObsolete] of the Query base class (Query.js is
    not part of the sources) sets the OBSOLETE bit of the status. *)
Definition setObsolete (q : Query) : Query :=
  set_status (Z.lor (status q) Status.OBSOLETE) q.

(** Modelled from the spec: [fetch] of the Query base class asks the source
    for fresh data; the source answers with callbacks on a later turn of the
    run loop, so the call is recorded and nothing else changes here. *)
Definition fetch (q : Query) : Query := emit QueryFetch q.

(** [source.fetchQuery(this)]: recorded, answered on a later turn. *)
Definition fetchQuery (q : Query) : Query := emit SourceFetchQuery q.

(** *** [_normaliseUpdate] *)

(** The number of leading [-1] entries of the sorted removed indexes. *)
Fixpoint countUnknown (removedIndexes : list Z) : nat :=
  match removedIndexes with
  | i :: rest =>
      if bool_decide (i = -1) then S (countUnknown rest) else 0%nat
  | [] => 0%nat
  end.

(** One turn of the loop over [update.added]: an addition that puts a removed
    store key back where it was cancels the removal. *)
Definition cancelAdded
  (acc : (list Z * list StoreKey) * (list Z * list StoreKey))
  (item : Z * StoreKey)
  : (list Z * list StoreKey) * (list Z * list StoreKey) :=
  let j := indexOf acc.1.2 item.2 in
  if (j >? -1) &&
     bool_decide ((fun r => r - j + len acc.2.1) <$> nth acc.1.1 j
                  = Some item.1)
  then ((spliceRemove acc.1.1 j, spliceRemove acc.1.2 j), acc.2)
  else (acc.1, (acc.2.1 ++ [item.1], acc.2.2 ++ [item.2])).

Definition _normaliseUpdate (q : Query) (update : RawUpdate) : Update :=
  let sorted :=
    sortLinkedArrays (mapIndexes (storeKeys q) (removed update))
      (removed update) in
  let i := countUnknown sorted.1 in
  let r := foldl cancelAdded ((drop i sorted.1, drop i sorted.2), ([], []))
             (added update) in
  {| removedIndexes := r.1.1;
     removedStoreKeys := r.1.2;
     addedIndexes := r.2.1;
     addedStoreKeys := r.2.2;
     truncateAtFirstGap := negb (bool_decide (i = 0%nat));
     total := match rawTotal update with
              | Some t => t
              | None => lengthOrZero q - len r.1.1 + len r.2.1
              end;
     upToId := rawUpToId update |}.

(** *** [recalculateFetchedWindows] *)

(** Are all the slots [first .. last] of the list truthy? *)
Definition slotsAreSet (slots : list (option StoreKey)) (first last : Z)
  : bool :=
  forallb (fun j => isSet (nth slots j)) (seqZ first (last - first + 1)).

(** The windows from the last one down to the one that holds [start] lose
    RECORDS_READY and get READY exactly when none of their slots is a gap. *)
Definition recalculateFetchedWindows (q : Query) (start length : Z)
  : result Query :=
  let windowSize := windowSize q in
  let lastWindow := (length - 1) / windowSize in
  let start := start / windowSize in
  if lastWindow + 1 <? 0 then Throw "RangeError: Invalid array length"
  else
    let step (windows : list Z) (windowIndex : Z) : list Z :=
      let target := windowIndex * windowSize in
      let listIndex :=
        if windowIndex =? lastWindow then length - 1
        else target + windowSize - 1 in
      let status :=
        Z.lor (Z.land (default 0 (nth windows windowIndex))
                 (Z.lnot WINDOW_RECORDS_READY)) WINDOW_READY in
      assign 0 windows windowIndex
        (if slotsAreSet (storeKeys q) target listIndex then status
         else Z.land status (Z.lnot WINDOW_READY)) in
    Ok (set_windows
          (foldl step (setLength 0 (windows q) (lastWindow + 1))
             (reverse (seqZ start (lastWindow - start + 1))))
          q).

(** *** The methods that call each other

    [_applyUpdate] ends with [_applyWaitingPackets], which calls
    [sourceDidFetchIds] on each packet it keeps, which can call [_applyUpdate]
    again. Each method is first written over the method it calls; the knot is
    tied by a counter on the depth of these calls. *)

Section WithCollaborators.

(** [store.getStoreKey(accountId, Type, id)] for the account and type of the
    query: on a non-empty id the store answers with the same key every time. *)
Variable toStoreKey : Id -> StoreKey.

(** [store.getStatus(storeKey)]; the argument is [None] for an empty slot. *)
Variable getStatus : option StoreKey -> Z.

(** [reset] of the Query base class (Query.js is not part of the sources). *)
Variable parentReset : Query -> Query.

Definition reset (q : Query) : Query :=
  parentReset
    (set_isAnExplicitIdFetch false
       (set_preemptiveUpdates []
          (set_waitingPackets []
             (set_indexOfRequested [] (set_windows [] q))))).

(** [checkIfWindowIsFetched] *)
Definition checkIfWindowIsFetched (q : Query) (index : Z) : bool :=
  let i := index * windowSize q in
  let l := Z.min (i + windowSize q) (lengthOrZero q) in
  forallb
    (fun j =>
       let status := getStatus (mjoin (nth (storeKeys q) j)) in
       negb (negb (Status.has status Status.READY) ||
             (Status.has status Status.OBSOLETE &&
              negb (Status.has status Status.LOADING))))
    (seqZ i (l - i)).

(** One turn of the loop of [fetchWindow] over the window indexes. *)
Definition fetchWindowStep (q : Query) (index : Z) (fetchRecords : bool)
  (acc : list Z * bool) (i : Z) : list Z * bool :=
  let status := default 0 (nth acc.1 i) in
  let requested := bool_decide (status = WINDOW_EMPTY) in
  let status := if requested then WINDOW_REQUESTED else status in
  let doFetch := acc.2 || requested in
  if bool_decide (i = index) && fetchRecords &&
     (status <? WINDOW_RECORDS_REQUESTED)
  then
    if Status.has status WINDOW_READY && checkIfWindowIsFetched q i
    then (assign 0 acc.1 i (Z.lor WINDOW_READY WINDOW_RECORDS_READY), doFetch)
    else (assign 0 acc.1 i (Z.lor status WINDOW_RECORDS_REQUESTED), true)
  else (assign 0 acc.1 i status, doFetch).

Definition fetchWindow (q : Query) (index : Z) (fetchRecords : bool)
  (prefetchArg : option Z) : Query :=
  let q := if Status.has (status q) Status.OBSOLETE then fetch q else q in
  let prefetch := default (prefetch q) prefetchArg in
  let i := Z.max 0 (index - prefetch) in
  let l := Z.min (index + prefetch + 1) (default 0 (windowCount q)) in
  let r := foldl (fetchWindowStep q index fetchRecords) (windows q, false)
             (seqZ i (l - i)) in
  let q := set_windows r.1 q in
  if r.2 then fetchQuery q else q.

(** [_fetchObservedWindows] *)
Definition _fetchObservedWindows (q : Query) : Query :=
  let length := lengthOrZero q in
  let windowSize := windowSize q in
  foldl
    (fun q range =>
       let observerStart := default 0 (rangeStart range) in
       let observerEnd := default length (rangeEnd range) in
       let observerStart :=
         if observerStart <? 0 then observerStart + length
         else observerStart in
       let observerEnd :=
         if observerEnd <? 0 then observerEnd + length else observerEnd in
       let firstWindow := observerStart / windowSize in
       let lastWindow := (observerEnd - 1) / windowSize in
       foldl (fun q w => fetchWindow q w true None) q
         (seqZ firstWindow (lastWindow - firstWindow + 1)))
    q (reverse (rangeObservers q)).

(** [_applyWaitingPackets]: the loop runs once for each packet that waits when
    it starts and takes the packet at the head of the queue each time. *)
Fixpoint drainPackets (sourceDidFetchIds : Query -> Packet -> result Query)
  (queryState : string) (turns : nat) (q : Query) (didDropPackets : bool)
  : result (Query * bool) :=
  match turns with
  | O => Ok (q, didDropPackets)
  | S turns' =>
      match waitingPackets q with
      | [] => Throw "TypeError: packet is undefined"
      | packet :: rest =>
          let q := set_waitingPackets rest q in
          if bool_decide (packetQueryState packet = queryState) then
            q' ← sourceDidFetchIds q packet;
            drainPackets sourceDidFetchIds queryState turns' q' didDropPackets
          else drainPackets sourceDidFetchIds queryState turns' q true
      end
  end.

Definition _applyWaitingPackets_over
  (sourceDidFetchIds : Query -> Packet -> result Query) (q : Query)
  : result Query :=
  r ← drainPackets sourceDidFetchIds (queryState q)
        (length (waitingPackets q)) q false;
  let r : Query * bool := r in
  Ok (if r.2 then _fetchObservedWindows r.1 else r.1).

(** [_applyUpdate], the check of [upToId]: [None] when the id is not in the
    list, otherwise the list, [firstChange] and [recalculateFetchedWindows]. *)
Definition truncateUpTo (upToId : option StoreKey)
  (slots : list (option StoreKey)) (firstChange : Z) (recalculate : bool)
  : option (list (option StoreKey) * Z * bool) :=
  match upToId with
  | None => Some (slots, firstChange, recalculate)
  | Some id =>
      if bool_decide (id = "") then Some (slots, firstChange, recalculate)
      else
        let index := lastIndexOf slots (Some id) + 1 in
        if index =? 0 then None
        else if index =? len slots then Some (slots, firstChange, recalculate)
        else Some (setLength None slots index, Z.min firstChange index, true)
  end.

(** The position of the first gap: the number of leading truthy slots. *)
Fixpoint firstGap (slots : list (option StoreKey)) : Z :=
  match slots with
  | slot :: rest => if isSet (Some slot) then 1 + firstGap rest else 0
  | [] => 0
  end.

Definition removeStep (acc : list (option StoreKey) * Z) (index : Z)
  : list (option StoreKey) * Z :=
  (spliceRemove acc.1 index, Z.min acc.2 index).

(** One addition; [acc] is the list, the tracked [listLength] and
    [firstChange]. *)
Definition addStep (acc : list (option StoreKey) * Z * Z) (item : Z * StoreKey)
  : list (option StoreKey) * Z * Z :=
  let index := item.1 in
  if index >=? acc.1.2 then
    (assign None acc.1.1 index (Some item.2), index + 1, Z.min acc.2 index)
  else
    (spliceInsert acc.1.1 index (Some item.2), acc.1.2 + 1, Z.min acc.2 index).

(** The list, [firstChange] and [recalculateFetchedWindows] after the three
    editing steps of [_applyUpdate]; [None] when the update asks for a reset. *)
Definition editList (q : Query) (args : Update)
  : option (list (option StoreKey) * Z * bool) :=
  let removedLength := length (removedStoreKeys args) in
  let addedLength := length (addedStoreKeys args) in
  let recalculate :=
    negb (bool_decide (addedLength = 0%nat) &&
          bool_decide (removedLength = 0%nat)) in
  match truncateUpTo (upToId args) (storeKeys q) (lengthOrZero q) recalculate
  with
  | None => None
  | Some (slots, firstChange, recalculate) =>
      let listLength := len slots in
      let r := foldl removeStep (slots, firstChange)
                 (reverse (take removedLength (removedIndexes args))) in
      let t :=
        if truncateAtFirstGap args then
          let i := firstGap r.1 in
          (setLength None r.1 i, i, Z.min r.2 i)
        else (r.1, listLength, r.2) in
      let a := foldl addStep t
                 (take addedLength (zip (addedIndexes args)
                                      (addedStoreKeys args))) in
      Some (a.1.1, a.2, recalculate)
  end.

Definition _applyUpdate_over (_applyWaitingPackets : Query -> result Query)
  (q : Query) (args : Update) : result Query :=
  let oldLength := lengthOrZero q in
  let newLength := total args in
  match editList q args with
  | None => Ok (reset q)
  | Some (slots, firstChange, recalculate) =>
      let q := set_storeKeys slots q in
      q ← (if recalculate
           then recalculateFetchedWindows q firstChange newLength
           else Ok q);
      let q := set_queryLength (Some newLength) q in
      let q := emit (RangeDidChange firstChange (Z.max oldLength newLength)) q in
      let q := emit (QueryUpdated (removedStoreKeys args) (removedIndexes args)
                       (addedStoreKeys args) (addedIndexes args)) q in
      _applyWaitingPackets q
  end.

(** [invertUpdate(preemptives.reduce(composeUpdates))]: when one update is on
    the stack, [reduce] returns that very object, so the stack holds the
    inverted update from then on. *)
Definition invertAllPreemptives (q : Query) : result (Update * Query) :=
  allPreemptives ← reduceCompose (preemptiveUpdates q);
  Ok (invertUpdate allPreemptives,
      match preemptiveUpdates q with
      | [p] => set_preemptiveUpdates [invertUpdate p] q
      | _ => q
      end).

(** [sourceDidFetchIds], the adjustment of the packet for the removals of the
    composed preemptive updates, from the last one to the first. *)
Definition adjustForRemoved (acc : list StoreKey * Z) (removedIndex : Z)
  : list StoreKey * Z :=
  let index := removedIndex - acc.2 in
  if index <? len acc.1 then
    if index >=? 0 then (spliceRemove acc.1 index, acc.2)
    else (acc.1, acc.2 - 1)
  else acc.

(** The same for the additions; the loop stops at the first addition past the
    end of the packet. *)
Fixpoint adjustForAdded (items : list (Z * StoreKey))
  (storeKeys : list StoreKey) (position : Z) : list StoreKey * Z :=
  match items with
  | [] => (storeKeys, position)
  | item :: rest =>
      let index := item.1 - position in
      if index <=? 0 then adjustForAdded rest storeKeys (position + 1)
      else if index <? len storeKeys
      then adjustForAdded rest (spliceInsert storeKeys index item.2) position
      else (storeKeys, position)
  end.

(** [list[position + i] = storeKeys[i]] *)
Definition writeSlot (position : Z) (slots : list (option StoreKey))
  (item : Z * StoreKey) : list (option StoreKey) :=
  assign None slots (position + item.1) (Some item.2).

(** [windows[w] |= WINDOW_READY] *)
Definition markReady (windows : list Z) (w : Z) : list Z :=
  assign 0 windows w (Z.lor (default 0 (nth windows w)) WINDOW_READY).

Definition sourceDidFetchIds_over
  (_applyUpdate : Query -> Update -> result Query)
  (q : Query) (args : Packet) : result Query :=
  let status0 := status q in
  let oldLength := lengthOrZero q in
  let canGetDeltaUpdates := canGetDeltaUpdates q in
  let stale :=
    negb (bool_decide (queryState q = "")) &&
    negb (bool_decide (queryState q = packetQueryState args)) in
  if stale && canGetDeltaUpdates then
    Ok (fetch
          (setObsolete (set_waitingPackets (waitingPackets q ++ [args]) q)))
  else
    let q :=
      if stale
      then set_preemptiveUpdates [] (set_windows [] (set_storeKeys [] q))
      else q in
    let informAllRangeObservers := stale in
    let q := set_queryState (packetQueryState args) q in
    let storeKeys0 := toStoreKey <$> ids args in
    r ← match preemptiveUpdates q with
        | [] => Ok (q, storeKeys0, position args, packetTotal args)
        | _ :: _ =>
            if canGetDeltaUpdates then
              allPreemptives ← reduceCompose (preemptiveUpdates q);
              let r1 := foldl adjustForRemoved (storeKeys0, position args)
                          (reverse (removedIndexes allPreemptives)) in
              let r2 := adjustForAdded
                          (zip (addedIndexes allPreemptives)
                             (addedStoreKeys allPreemptives)) r1.1 r1.2 in
              Ok (q, r2.1, r2.2, total allPreemptives)
            else
              inv ← invertAllPreemptives q;
              let inv : Update * Query := inv in
              q' ← _applyUpdate inv.2 inv.1;
              Ok (set_preemptiveUpdates [] q', storeKeys0, position args,
                  packetTotal args)
        end;
    let '(q, storeKeys1, position, total) := r in
    let length := len storeKeys1 in
    let end_ := position + length in
    let slots :=
      foldl (writeSlot position) (storeKeys q)
        (zip (seqZ 0 length) storeKeys1) in
    let windowSize := windowSize q in
    let windowIndex := position / windowSize in
    let withinWindowIndex := Z.rem position windowSize in
    let '(length, windowIndex) :=
      if bool_decide (withinWindowIndex = 0) then (length, windowIndex)
      else if slotsAreSet slots (windowIndex * windowSize)
                (windowIndex * windowSize + withinWindowIndex - 1)
      then (length + withinWindowIndex, windowIndex)
      else (length - (windowSize - withinWindowIndex), windowIndex + 1) in
    if (windowSize <=? 0) && (0 <=? length - windowSize) then OutOfFuel
    else
      let full := if length <? 0 then 0 else length / windowSize in
      let windows := foldl markReady (windows q) (seqZ windowIndex full) in
      let windowIndex := windowIndex + full in
      let length := length - full * windowSize in
      let windows :=
        if negb (bool_decide (length = 0)) && bool_decide (end_ = total) &&
           bool_decide (length = Z.rem total windowSize)
        then markReady windows windowIndex else windows in
      let q := set_windows windows (set_storeKeys slots q) in
      let q := set_queryLength (Some total) q in
      let q :=
        set_status
          (Z.lor Status.READY
             (Z.land status0
                (Z.lor (Z.lor Status.DIRTY Status.LOADING) Status.OBSOLETE)))
          q in
      let q :=
        emit (RangeDidChange
                (if informAllRangeObservers then 0 else position)
                (if informAllRangeObservers then Z.max oldLength end_
                 else end_)) q in
      Ok (emit IdsLoaded q).

(** The knot: [fuel] bounds the depth of the calls of [_applyUpdate]. *)
Fixpoint _applyUpdate (fuel : nat) (q : Query) (args : Update)
  : result Query :=
  match fuel with
  | O => OutOfFuel
  | S fuel' =>
      _applyUpdate_over
        (_applyWaitingPackets_over
           (sourceDidFetchIds_over (_applyUpdate fuel')))
        q args
  end.

Definition sourceDidFetchIds (fuel : nat) : Query -> Packet -> result Query :=
  sourceDidFetchIds_over (_applyUpdate fuel).

Definition _applyWaitingPackets (fuel : nat) : Query -> result Query :=
  _applyWaitingPackets_over (sourceDidFetchIds fuel).

(** [clientDidGenerateUpdate] *)
Definition clientDidGenerateUpdate (fuel : nat) (q : Query)
  (update : RawUpdate) : result Query :=
  let n := _normaliseUpdate q update in
  let update :=
    {| removedIndexes := removedIndexes n;
       removedStoreKeys := removedStoreKeys n;
       addedIndexes := addedIndexes n;
       addedStoreKeys := addedStoreKeys n;
       truncateAtFirstGap := false;
       total := total n;
       upToId := upToId n |} in
  q ← _applyUpdate fuel q update;
  let q := set_preemptiveUpdates (preemptiveUpdates q ++ [update]) q in
  let q := set_status (Z.lor (status q) Status.DIRTY) q in
  Ok (setObsolete q).

(** *** [sourceDidFetchUpdate] *)

(** The removed ids as store keys, each store key once. *)
Definition dedupeStep (acc : gset StoreKey * list StoreKey) (id : Id)
  : gset StoreKey * list StoreKey :=
  let storeKey := toStoreKey id in
  if bool_decide (storeKey ∈ acc.1) then acc
  else ({[storeKey]} ∪ acc.1, acc.2 ++ [storeKey]).

Definition removedStoreKeysOf (update : Delta) : list StoreKey :=
  (foldl dedupeStep (∅, []) (deltaRemoved update)).2.

Definition addedStoreKeysOf (update : Delta) : list (Z * StoreKey) :=
  (fun item => (item.1, toStoreKey item.2)) <$> deltaAdded update.

(** [update.upToId && toStoreKey(update.upToId)]; an empty id is falsy. *)
Definition upToIdOf (update : Delta) : option StoreKey :=
  match deltaUpToId update with
  | Some id => if bool_decide (id = "") then None else Some (toStoreKey id)
  | None => None
  end.

(** 1. [composed]: [[p1, p1 + p2, p1 + p2 + p3]]. *)
Fixpoint composeFrom (acc : Update) (rest : list Update) : list Update :=
  match rest with
  | [] => [acc]
  | p :: rest' => acc :: composeFrom (composeUpdates acc p) rest'
  end.

Definition composePreemptives (preemptives : list Update) : list Update :=
  match preemptives with
  | [] => []
  | p :: rest => composeFrom p rest
  end.

(** The index that goes with a store key in a pair of linked arrays. *)
Definition linkedIndex (indexes : list Z) (storeKeys : list StoreKey)
  (storeKey : StoreKey) : option Z :=
  let j := indexOf storeKeys storeKey in
  if j >? -1 then nth indexes j else None.

(** 2. The first loop over the removed store keys. The state is the removed
    indexes and store keys found in the composed preemptive, the indexes and
    store keys found in the list, and [truncateAtFirstGap]. *)
Record Located : Type := mkLocated {
  foundIndexes : list Z;
  foundStoreKeys : list StoreKey;
  indexesToRemove : list Z;
  storeKeysToRemove : list StoreKey;
  truncate : bool
}.

Definition locateStep (allPreemptives : Update)
  (slots : list (option StoreKey)) (acc : Located) (storeKey : StoreKey)
  : Located :=
  match linkedIndex (removedIndexes allPreemptives)
          (removedStoreKeys allPreemptives) storeKey with
  | Some index =>
      mkLocated (foundIndexes acc ++ [index]) (foundStoreKeys acc ++ [storeKey])
        (indexesToRemove acc) (storeKeysToRemove acc) (truncate acc)
  | None =>
      let index := indexOf slots (Some storeKey) in
      if index >? -1 then
        mkLocated (foundIndexes acc) (foundStoreKeys acc)
          (indexesToRemove acc ++ [index]) (storeKeysToRemove acc ++ [storeKey])
          (truncate acc)
      else
        mkLocated (foundIndexes acc) (foundStoreKeys acc)
          (indexesToRemove acc) (storeKeysToRemove acc) true
  end.

(** The second loop: the original index of a store key found in the list is
    read from the composition of the preemptives with these removals. The
    update that is composed has only its four arrays. *)
Definition originalStep (composedUpdate : Update) (acc : Located)
  (storeKey : StoreKey) : Located :=
  match linkedIndex (removedIndexes composedUpdate)
          (removedStoreKeys composedUpdate) storeKey with
  | Some index =>
      mkLocated (foundIndexes acc ++ [index]) (foundStoreKeys acc ++ [storeKey])
        (indexesToRemove acc) (storeKeysToRemove acc) (truncate acc)
  | None =>
      mkLocated (foundIndexes acc) (foundStoreKeys acc)
        (indexesToRemove acc) (storeKeysToRemove acc) true
  end.

Definition locateRemoved (allPreemptives : Update)
  (slots : list (option StoreKey)) (removed : list StoreKey) : Located :=
  let located :=
    foldl (locateStep allPreemptives slots) (mkLocated [] [] [] [] false)
      removed in
  match storeKeysToRemove located with
  | [] => located
  | _ :: _ =>
      let composedUpdate :=
        composeUpdates allPreemptives
          (mkUpdate (indexesToRemove located) (storeKeysToRemove located)
             [] [] false 0 None) in
      foldl (originalStep composedUpdate) located (storeKeysToRemove located)
  end.

(** The loop that removes the idempotent operations, from the last addition
    to the first; [acc] is the removed pair and the added pair of arrays. *)
Definition cancelIdempotent
  (acc : (list Z * list StoreKey) * (list Z * list StoreKey))
  (item : Z * (Z * StoreKey))
  : (list Z * list StoreKey) * (list Z * list StoreKey) :=
  let i := item.1 in
  let j := indexOf acc.1.2 item.2.2 in
  if (j >? -1) &&
     bool_decide ((fun r => r - j + i) <$> nth acc.1.1 j = Some item.2.1)
  then ((spliceRemove acc.1.1 j, spliceRemove acc.1.2 j),
        (spliceRemove acc.2.1 i, spliceRemove acc.2.2 i))
  else acc.

(** The normalised update of the server, against the composed preemptives. *)
Definition normaliseAgainst (allPreemptives : Update)
  (slots : list (option StoreKey)) (removed : list StoreKey)
  (added : list (Z * StoreKey)) (total : Z) (upToId : option StoreKey)
  : Update :=
  let located := locateRemoved allPreemptives slots removed in
  let sorted :=
    sortLinkedArrays (foundIndexes located) (foundStoreKeys located) in
  let r :=
    foldl cancelIdempotent (sorted, (added.*1, added.*2))
      (reverse (zip (seqZ 0 (len added)) added)) in
  {| removedIndexes := r.1.1;
     removedStoreKeys := r.1.2;
     addedIndexes := r.2.1;
     addedStoreKeys := r.2.2;
     truncateAtFirstGap := truncate located;
     total := total;
     upToId := upToId |}.

(** 3. The last composed state that the normalised update is equal to. *)
Fixpoint lastMatch (normalisedUpdate : Update) (composed : list Update)
  (i : nat) : option nat :=
  match composed with
  | [] => None
  | c :: rest =>
      match lastMatch normalisedUpdate rest (S i) with
      | Some j => Some j
      | None => if updateIsEqual normalisedUpdate c then Some i else None
      end
  end.

(** The list is cut at its first gap when the guess was right but some
    removed id was not found. *)
Definition truncateAtGap (q : Query) : result Query :=
  let i := firstGap (storeKeys q) in
  if bool_decide (len (storeKeys q) = i) then Ok q
  else
    recalculateFetchedWindows (set_storeKeys (setLength None (storeKeys q) i) q)
      i (lengthOrZero q).

Definition reconcile (fuel : nat) (q : Query) (status0 : Z)
  (removed : list StoreKey) (added : list (Z * StoreKey)) (total : Z)
  (upToId : option StoreKey) : result Query :=
  let preemptives := preemptiveUpdates q in
  let composed := composePreemptives preemptives in
  allPreemptives ← reduceCompose preemptives;
  let normalisedUpdate :=
    normaliseAgainst allPreemptives (storeKeys q) removed added total upToId in
  let confirmed : option (list Update) :=
    if bool_decide (removedStoreKeys normalisedUpdate = []) &&
       bool_decide (addedStoreKeys normalisedUpdate = [])
    then Some preemptives
    else (fun i => drop (S i) preemptives)
           <$> lastMatch normalisedUpdate composed 0 in
  match confirmed with
  | Some remaining =>
      let q := set_preemptiveUpdates remaining q in
      q ← (if truncateAtFirstGap normalisedUpdate then truncateAtGap q
           else Ok q);
      if negb (Status.has status0 Status.DIRTY) &&
         negb (bool_decide (preemptiveUpdates q = []))
      then
        inv ← invertAllPreemptives q;
        let inv : Update * Query := inv in
        q' ← _applyUpdate fuel inv.2 inv.1;
        Ok (set_preemptiveUpdates [] q')
      else _applyWaitingPackets fuel q
  | None =>
      _applyUpdate fuel (set_preemptiveUpdates [] q)
        (composeUpdates (invertUpdate allPreemptives) normalisedUpdate)
  end.

Definition sourceDidFetchUpdate (fuel : nat) (q : Query) (update : Delta)
  : result Query :=
  let queryState0 := queryState q in
  let status0 := status q in
  let q := set_status (Z.land status0 (Z.lnot Status.LOADING)) q in
  if bool_decide (queryState0 = newQueryState update) then
    if negb (bool_decide (preemptiveUpdates q = [])) &&
       negb (Status.has status0 Status.DIRTY)
    then
      inv ← invertAllPreemptives q;
      let inv : Update * Query := inv in
      q' ← _applyUpdate fuel inv.2 inv.1;
      Ok (set_preemptiveUpdates [] q')
    else Ok q
  else if negb (bool_decide (queryState0 = oldQueryState update)) then
    Ok (setObsolete q)
  else
    let q := set_queryState (newQueryState update) q in
    let added := addedStoreKeysOf update in
    let removed := removedStoreKeysOf update in
    let upToId := upToIdOf update in
    let total := deltaTotal update in
    match preemptiveUpdates q with
    | [] =>
        _applyUpdate fuel q
          (_normaliseUpdate q (mkRawUpdate removed added (Some total) upToId))
    | _ :: _ => reconcile fuel q status0 removed added total upToId
    end.

(** The normalised update that [sourceDidFetchUpdate] computes for a delta
    when preemptive updates are pending (step 2 of [reconcile]). *)
Definition normalisedDelta (q : Query) (update : Delta) : result Update :=
  allPreemptives ← reduceCompose (preemptiveUpdates q);
  Ok (normaliseAgainst allPreemptives (storeKeys q)
        (removedStoreKeysOf update) (addedStoreKeysOf update)
        (deltaTotal update) (upToIdOf update)).


(** *** Statements about the reconciliation *)

(** What the reconciliation of a delta is about: the list, the stack of
    preemptive updates, the state token and the waiting packets. *)
Definition sameCore (q q' : Query) : Prop :=
  storeKeys q' = storeKeys q /\
  preemptiveUpdates q' = preemptiveUpdates q /\
  queryState q' = queryState q /\
  waitingPackets q' = waitingPackets q.

(** "If the server update normalised against the composed preemptives equals
    any prefix composition, that prefix leaves the stack, the list stays as
    the preemptive updates left it and the state token advances", at one
    query and one delta. *)
Definition confirmedPrefixIsDropped (fuel : nat) (q : Query) (update : Delta)
  : Prop :=
  forall (N : Update) (k : nat) (c : Update),
    preemptiveUpdates q <> [] ->
    oldQueryState update = queryState q ->
    normalisedDelta q update = Ok N ->
    (k < length (preemptiveUpdates q))%nat ->
    reduceCompose (take (S k) (preemptiveUpdates q)) = Ok c ->
    updateIsEqual N c = true ->
    exists q',
      sourceDidFetchUpdate fuel q update = Ok q' /\
      preemptiveUpdates q' = drop (S k) (preemptiveUpdates q) /\
      storeKeys q' = storeKeys q /\
      queryState q' = newQueryState update.

End WithCollaborators.

(** *** Scenarios of the specification *)

Module Scenario.

(** Ids are [id1, id2, ..] and the store gives them the keys [sk1, sk2, ..]. *)
Definition toStoreKey (id : Id) : StoreKey :=
  match id with
  | String _ (String _ rest) => "sk" +:+ rest
  | _ => id
  end.

(** Every record of the list is loaded. *)
Definition getStatus (storeKey : option StoreKey) : Z := Status.READY.

(** A stand-in for the reset of the base class; no scenario reaches it. *)
Definition parentReset (q : Query) : Query :=
  set_queryLength None
    (set_status Status.EMPTY (set_queryState "" (set_storeKeys [] q))).

Definition run_clientDidGenerateUpdate :=
  clientDidGenerateUpdate toStoreKey getStatus parentReset.
Definition run_sourceDidFetchUpdate :=
  sourceDidFetchUpdate toStoreKey getStatus parentReset.

(** S4: the list [sk1, sk2, sk3] in state [s0], one window, all ids known. *)
Definition s4_initial : Query :=
  {| windowSize := 30; prefetch := 1; canGetDeltaUpdates := true;
     rangeObservers := [];
     storeKeys := [Some "sk1"; Some "sk2"; Some "sk3"];
     windows := [WINDOW_READY];
     queryState := "s0"; status := Status.READY; queryLength := Some 3;
     preemptiveUpdates := []; waitingPackets := []; indexOfRequested := [];
     isAnExplicitIdFetch := false; events := [] |}.

(** The client removes [sk2]. *)
Definition s4_remove_sk2 : RawUpdate :=
  {| removed := ["sk2"]; added := []; rawTotal := None; rawUpToId := None |}.

(** The state after the preemptive removal. *)
Definition s4_preempted : Query :=
  {| windowSize := 30; prefetch := 1; canGetDeltaUpdates := true;
     rangeObservers := [];
     storeKeys := [Some "sk1"; Some "sk3"];
     windows := [WINDOW_READY];
     queryState := "s0";
     status := Z.lor (Z.lor Status.READY Status.DIRTY) Status.OBSOLETE;
     queryLength := Some 2;
     preemptiveUpdates := [mkUpdate [1] ["sk2"] [] [] false 2 None];
     waitingPackets := []; indexOfRequested := [];
     isAnExplicitIdFetch := false;
     events := [RangeDidChange 1 3; QueryUpdated ["sk2"] [1] [] []] |}.

(** The delta of the server: [id2] removed, two records left. *)
Definition s4_delta : Delta :=
  {| oldQueryState := "s0"; newQueryState := "s1";
     deltaRemoved := ["id2"]; deltaAdded := []; deltaUpToId := None;
     deltaTotal := 2 |}.

(** Two preemptive removals, of [sk2] then of [sk4], from the list
    [sk1, sk2, sk3, sk4]; a refresh has been sent since
    ([sourceWillFetchQuery] took DIRTY and OBSOLETE away and set LOADING). *)
Definition two_preemptives : Query :=
  {| windowSize := 30; prefetch := 1; canGetDeltaUpdates := true;
     rangeObservers := [];
     storeKeys := [Some "sk1"; Some "sk3"];
     windows := [WINDOW_READY];
     queryState := "s0";
     status := Z.lor Status.READY Status.LOADING;
     queryLength := Some 2;
     preemptiveUpdates :=
       [mkUpdate [1] ["sk2"] [] [] false 3 None;
        mkUpdate [2] ["sk4"] [] [] false 2 None];
     waitingPackets := []; indexOfRequested := [];
     isAnExplicitIdFetch := false; events := [] |}.

(** The server has seen the first removal only. *)
Definition first_only_delta : Delta :=
  {| oldQueryState := "s0"; newQueryState := "s1";
     deltaRemoved := ["id2"]; deltaAdded := []; deltaUpToId := None;
     deltaTotal := 3 |}.

(** The list [sk1, sk2, sk3, sk4] in state [s0]. *)
Definition four_records : Query :=
  {| windowSize := 30; prefetch := 1; canGetDeltaUpdates := true;
     rangeObservers := [];
     storeKeys := [Some "sk1"; Some "sk2"; Some "sk3"; Some "sk4"];
     windows := [WINDOW_READY];
     queryState := "s0"; status := Status.READY; queryLength := Some 4;
     preemptiveUpdates := []; waitingPackets := []; indexOfRequested := [];
     isAnExplicitIdFetch := false; events := [] |}.



End Scenario.

End WindowedQuery.

(** ** JavaScript objects that are enumerated *)

Module JsObject.

(** An object is the list of its own properties in insertion order, which is
    the order of [for .. in] for keys that do not look like array indexes
    (store keys [k1, k2, ..] and attribute names never do; ids are taken in
    the order in which they were inserted). *)
Section Obj.
Context {V : Type}.

(** [o[k]], [None] standing for [undefined] *)
Fixpoint get (o : list (string * V)) (k : string) : option V :=
  match o with
  | [] => None
  | kv :: o' => if decide (kv.1 = k) then Some kv.2 else get o' k
  end.

(** [o[k] = v]: an own property keeps its place, a new one goes last. *)
Fixpoint set (o : list (string * V)) (k : string) (v : V)
  : list (string * V) :=
  match o with
  | [] => [(k, v)]
  | kv :: o' => if decide (kv.1 = k) then (k, v) :: o' else kv :: set o' k v
  end.

(** [delete o[k]] *)
Definition del (o : list (string * V)) (k : string) : list (string * V) :=
  filter (fun kv => kv.1 <> k) o.

(** [k in o] *)
Definition has (o : list (string * V)) (k : string) : bool :=
  bool_decide (is_Some (get o k)).

(** [Object.keys(o)], the order of [for (const k in o)] *)
Definition keys (o : list (string * V)) : list string := o.*1.

(** [Object.assign(o, src)] *)
Definition assign (o src : list (string * V)) : list (string * V) :=
  foldl (fun o kv => set o kv.1 kv.2) o src.

End Obj.

End JsObject.

(** ** Store: the tables *)

Module Store.

(** Store keys, ids, account ids and the guids of the record types are
    strings. *)
Abbreviation StoreKey := string (only parsing).
Abbreviation Id := string (only parsing).
Abbreviation AccountId := string (only parsing).
Abbreviation TypeId := string (only parsing).

(** An attribute value. Attribute values are primitives here; [isEqual] of
    core/Core.js on primitives is identity. *)
Inductive Value : Type :=
  | VUndefined
  | VNull
  | VBool (b : bool)
  | VNum (n : Z)
  | VStr (s : string).

#[global] Instance Value_eq_dec : EqDecision Value.
Proof. solve_decision. Defined.

Definition isEqual (a b : Value) : bool := bool_decide (a = b).

(** Is the value truthy? *)
Definition truthy (v : Value) : bool :=
  match v with
  | VUndefined | VNull => false
  | VBool b => b
  | VNum n => negb (n =? 0)
  | VStr s => negb (bool_decide (s = ""))
  end.

(** A data hash: attribute key to value. *)
Abbreviation Data := (list (string * Value)) (only parsing).

(** [data[key]] *)
Definition attr (data : Data) (key : string) : Value :=
  default VUndefined (JsObject.get data key).

(** [data.accountId] as a string, empty when it is not a string. *)
Definition accountIdOf (data : Data) : AccountId :=
  match attr data "accountId" with
  | VStr a => a
  | _ => ""
  end.

(** What the store reads of a record type: [guid(Type)] names it; the
    attributes come from [meta(Type.prototype).attrs]. A to-one attribute
    refers to a record of another type; its value is an id at the source and
    a store key in the store. *)
Record Attribute : Type := mkAttribute {
  attrKey : string;
  noSync : bool;
  defaultValue : Value;
  toOne : option TypeId
}.

Record TypeInfo : Type := mkTypeInfo {
  primaryKey : string;
  attrs : list Attribute
}.

(** [Record.getClientSettableAttributes(Type)]: the attribute keys that are
    not [noSync]. *)
Definition getClientSettableAttributes (T : TypeInfo) : list string :=
  attrKey <$> filter (fun a => noSync a = false) (attrs T).

(** [getForeignRefAttrs(Type)], for the to-one references. *)
Definition getForeignRefAttrs (T : TypeInfo) : list (string * TypeId) :=
  omap (fun a => (fun t => (attrKey a, t)) <$> toOne a) (attrs T).

(** The materialised record of a store key, as far as the store asks it:
    [record.hasObservers()]. *)
Record RecordInstance : Type := mkRecordInstance {
  hasObservers : bool
}.

(** A nested store, as far as the store asks it: its [mayUnloadRecord]. The
    store itself is not nested ([isNested] is false on O.Store; the branches
    for a nested store, whose tables inherit from the parent's, are outside
    this development). *)
Record NestedStore : Type := mkNestedStore {
  nestedMayUnloadRecord : StoreKey -> bool
}.

Record Account : Type := mkAccount {
  accountCapabilities : list string;
  accountStatus : gmap TypeId Z;
  clientState : gmap TypeId string;
  serverState : gmap TypeId string;
  typeToIdToSK : gmap TypeId (gmap Id StoreKey);
  ignoreServerState : bool;
  awaitingReady : gset TypeId
}.

(** One (type, account) bundle of the changes handed to the source; the
    parallel arrays of each part are kept as one list of tuples, and the
    groups of [moveFromAccount] as one list tagged with the account the
    record comes from. *)
Record Changes : Type := mkChanges {
  changesType : TypeId;
  changesAccountId : AccountId;
  changesState : option string;
  changesCreate : list (StoreKey * option Data);
  changesUpdate :
    list (StoreKey * option Data * option Data * list (string * bool));
  changesMove :
    list (AccountId * option Id * StoreKey * option Data
          * option (list (string * bool)));
  changesDestroy : list (StoreKey * Id)
}.

(** What leaves the store: the diagnostic channel, the run loop, the record
    instances and nested stores, the source, the listeners. *)
Inductive Effect : Type :=
  | DidError (name : string)
  | QueueCommitChanges
  | QueueCheckForChanges
  | QueueFireTypeChanges
  | StatusDidChange (storeKey : StoreKey) (previous status : Z)
  | DataDidChange (storeKey : StoreKey) (changedKeys : list string)
  | WillUnload (storeKey : StoreKey)
  | StoreKeyDidChange (oldStoreKey newStoreKey : StoreKey)
  | SourceFetchRecord (accountId : AccountId) (type : TypeId) (id : Id)
  | SourceRefreshRecord (accountId : AccountId) (type : TypeId) (id : Id)
  | SourceFetchAllRecords (accountId : AccountId) (type : TypeId)
      (state : option string)
  | SourceCommitChanges (changes : list (string * Changes))
  | Fire (event : string).

Record Store : Type := mkStore {
  autoCommit : bool;
  rebaseConflicts : bool;
  nestedStores : list NestedStore;
  nextStoreKey : N;
  typeToSKToId : gmap TypeId (list (StoreKey * Id));
  skToAccountId : gmap StoreKey AccountId;
  skToType : gmap StoreKey TypeId;
  skToStatus : gmap StoreKey Z;
  skToData : gmap StoreKey Data;
  skToChanged : list (StoreKey * list (string * bool));
  skToCommitted : gmap StoreKey Data;
  skToRollback : gmap StoreKey Data;
  skToRecord : gmap StoreKey RecordInstance;
  skToLastAccess : gmap StoreKey Z;
  hasChanges : bool;
  isCommitting : bool;
  created : list (StoreKey * StoreKey);
  destroyed : list (StoreKey * StoreKey);
  changedTypes : gset TypeId;
  accounts : gmap AccountId Account;
  effects : list Effect
}.

Definition set_nextStoreKey (v : N) (s : Store) : Store :=
  mkStore (autoCommit s) (rebaseConflicts s) (nestedStores s) v
    (typeToSKToId s) (skToAccountId s) (skToType s) (skToStatus s)
    (skToData s) (skToChanged s) (skToCommitted s) (skToRollback s)
    (skToRecord s) (skToLastAccess s) (hasChanges s) (isCommitting s)
    (created s) (destroyed s) (changedTypes s) (accounts s) (effects s).

Definition set_typeToSKToId (v : gmap TypeId (list (StoreKey * Id)))
  (s : Store) : Store :=
  mkStore (autoCommit s) (rebaseConflicts s) (nestedStores s) (nextStoreKey s)
    v (skToAccountId s) (skToType s) (skToStatus s)
    (skToData s) (skToChanged s) (skToCommitted s) (skToRollback s)
    (skToRecord s) (skToLastAccess s) (hasChanges s) (isCommitting s)
    (created s) (destroyed s) (changedTypes s) (accounts s) (effects s).

Definition set_skToAccountId (v : gmap StoreKey AccountId) (s : Store)
  : Store :=
  mkStore (autoCommit s) (rebaseConflicts s) (nestedStores s) (nextStoreKey s)
    (typeToSKToId s) v (skToType s) (skToStatus s)
    (skToData s) (skToChanged s) (skToCommitted s) (skToRollback s)
    (skToRecord s) (skToLastAccess s) (hasChanges s) (isCommitting s)
    (created s) (destroyed s) (changedTypes s) (accounts s) (effects s).

Definition set_skToType (v : gmap StoreKey TypeId) (s : Store) : Store :=
  mkStore (autoCommit s) (rebaseConflicts s) (nestedStores s) (nextStoreKey s)
    (typeToSKToId s) (skToAccountId s) v (skToStatus s)
    (skToData s) (skToChanged s) (skToCommitted s) (skToRollback s)
    (skToRecord s) (skToLastAccess s) (hasChanges s) (isCommitting s)
    (created s) (destroyed s) (changedTypes s) (accounts s) (effects s).

Definition set_skToStatus (v : gmap StoreKey Z) (s : Store) : Store :=
  mkStore (autoCommit s) (rebaseConflicts s) (nestedStores s) (nextStoreKey s)
    (typeToSKToId s) (skToAccountId s) (skToType s) v
    (skToData s) (skToChanged s) (skToCommitted s) (skToRollback s)
    (skToRecord s) (skToLastAccess s) (hasChanges s) (isCommitting s)
    (created s) (destroyed s) (changedTypes s) (accounts s) (effects s).

Definition set_skToData (v : gmap StoreKey Data) (s : Store) : Store :=
  mkStore (autoCommit s) (rebaseConflicts s) (nestedStores s) (nextStoreKey s)
    (typeToSKToId s) (skToAccountId s) (skToType s) (skToStatus s)
    v (skToChanged s) (skToCommitted s) (skToRollback s)
    (skToRecord s) (skToLastAccess s) (hasChanges s) (isCommitting s)
    (created s) (destroyed s) (changedTypes s) (accounts s) (effects s).

Definition set_skToChanged (v : list (StoreKey * list (string * bool)))
  (s : Store) : Store :=
  mkStore (autoCommit s) (rebaseConflicts s) (nestedStores s) (nextStoreKey s)
    (typeToSKToId s) (skToAccountId s) (skToType s) (skToStatus s)
    (skToData s) v (skToCommitted s) (skToRollback s)
    (skToRecord s) (skToLastAccess s) (hasChanges s) (isCommitting s)
    (created s) (destroyed s) (changedTypes s) (accounts s) (effects s).

Definition set_skToCommitted (v : gmap StoreKey Data) (s : Store) : Store :=
  mkStore (autoCommit s) (rebaseConflicts s) (nestedStores s) (nextStoreKey s)
    (typeToSKToId s) (skToAccountId s) (skToType s) (skToStatus s)
    (skToData s) (skToChanged s) v (skToRollback s)
    (skToRecord s) (skToLastAccess s) (hasChanges s) (isCommitting s)
    (created s) (destroyed s) (changedTypes s) (accounts s) (effects s).

Definition set_skToRollback (v : gmap StoreKey Data) (s : Store) : Store :=
  mkStore (autoCommit s) (rebaseConflicts s) (nestedStores s) (nextStoreKey s)
    (typeToSKToId s) (skToAccountId s) (skToType s) (skToStatus s)
    (skToData s) (skToChanged s) (skToCommitted s) v
    (skToRecord s) (skToLastAccess s) (hasChanges s) (isCommitting s)
    (created s) (destroyed s) (changedTypes s) (accounts s) (effects s).

Definition set_skToRecord (v : gmap StoreKey RecordInstance) (s : Store)
  : Store :=
  mkStore (autoCommit s) (rebaseConflicts s) (nestedStores s) (nextStoreKey s)
    (typeToSKToId s) (skToAccountId s) (skToType s) (skToStatus s)
    (skToData s) (skToChanged s) (skToCommitted s) (skToRollback s)
    v (skToLastAccess s) (hasChanges s) (isCommitting s)
    (created s) (destroyed s) (changedTypes s) (accounts s) (effects s).

Definition set_skToLastAccess (v : gmap StoreKey Z) (s : Store) : Store :=
  mkStore (autoCommit s) (rebaseConflicts s) (nestedStores s) (nextStoreKey s)
    (typeToSKToId s) (skToAccountId s) (skToType s) (skToStatus s)
    (skToData s) (skToChanged s) (skToCommitted s) (skToRollback s)
    (skToRecord s) v (hasChanges s) (isCommitting s)
    (created s) (destroyed s) (changedTypes s) (accounts s) (effects s).

Definition set_hasChanges (v : bool) (s : Store) : Store :=
  mkStore (autoCommit s) (rebaseConflicts s) (nestedStores s) (nextStoreKey s)
    (typeToSKToId s) (skToAccountId s) (skToType s) (skToStatus s)
    (skToData s) (skToChanged s) (skToCommitted s) (skToRollback s)
    (skToRecord s) (skToLastAccess s) v (isCommitting s)
    (created s) (destroyed s) (changedTypes s) (accounts s) (effects s).

Definition set_isCommitting (v : bool) (s : Store) : Store :=
  mkStore (autoCommit s) (rebaseConflicts s) (nestedStores s) (nextStoreKey s)
    (typeToSKToId s) (skToAccountId s) (skToType s) (skToStatus s)
    (skToData s) (skToChanged s) (skToCommitted s) (skToRollback s)
    (skToRecord s) (skToLastAccess s) (hasChanges s) v
    (created s) (destroyed s) (changedTypes s) (accounts s) (effects s).

Definition set_created (v : list (StoreKey * StoreKey)) (s : Store) : Store :=
  mkStore (autoCommit s) (rebaseConflicts s) (nestedStores s) (nextStoreKey s)
    (typeToSKToId s) (skToAccountId s) (skToType s) (skToStatus s)
    (skToData s) (skToChanged s) (skToCommitted s) (skToRollback s)
    (skToRecord s) (skToLastAccess s) (hasChanges s) (isCommitting s)
    v (destroyed s) (changedTypes s) (accounts s) (effects s).

Definition set_destroyed (v : list (StoreKey * StoreKey)) (s : Store)
  : Store :=
  mkStore (autoCommit s) (rebaseConflicts s) (nestedStores s) (nextStoreKey s)
    (typeToSKToId s) (skToAccountId s) (skToType s) (skToStatus s)
    (skToData s) (skToChanged s) (skToCommitted s) (skToRollback s)
    (skToRecord s) (skToLastAccess s) (hasChanges s) (isCommitting s)
    (created s) v (changedTypes s) (accounts s) (effects s).

Definition set_changedTypes (v : gset TypeId) (s : Store) : Store :=
  mkStore (autoCommit s) (rebaseConflicts s) (nestedStores s) (nextStoreKey s)
    (typeToSKToId s) (skToAccountId s) (skToType s) (skToStatus s)
    (skToData s) (skToChanged s) (skToCommitted s) (skToRollback s)
    (skToRecord s) (skToLastAccess s) (hasChanges s) (isCommitting s)
    (created s) (destroyed s) v (accounts s) (effects s).

Definition set_accounts (v : gmap AccountId Account) (s : Store) : Store :=
  mkStore (autoCommit s) (rebaseConflicts s) (nestedStores s) (nextStoreKey s)
    (typeToSKToId s) (skToAccountId s) (skToType s) (skToStatus s)
    (skToData s) (skToChanged s) (skToCommitted s) (skToRollback s)
    (skToRecord s) (skToLastAccess s) (hasChanges s) (isCommitting s)
    (created s) (destroyed s) (changedTypes s) v (effects s).

(** An outside call or notification is recorded at the end of the log. *)
Definition emit (e : Effect) (s : Store) : Store :=
  mkStore (autoCommit s) (rebaseConflicts s) (nestedStores s) (nextStoreKey s)
    (typeToSKToId s) (skToAccountId s) (skToType s) (skToStatus s)
    (skToData s) (skToChanged s) (skToCommitted s) (skToRollback s)
    (skToRecord s) (skToLastAccess s) (hasChanges s) (isCommitting s)
    (created s) (destroyed s) (changedTypes s) (accounts s)
    (effects s ++ [e]).

(** ** Store: the methods *)

Import Status.

Definition READY_NEW_DIRTY : Z := Z.lor (Z.lor READY NEW) DIRTY.

(** [filter(object, include)] of core/KeyValue.js: the properties of the
    object whose key is in [include]. *)
Definition filterObject {V} (o : list (string * V)) (include : list string)
  : list (string * V) :=
  filter (fun kv => kv.1 ∈ include) o.

(** ['' + value], for a value used as a key or inside a string. *)
Definition render (v : Value) : string :=
  match v with
  | VUndefined => "undefined"
  | VNull => "null"
  | VBool true => "true"
  | VBool false => "false"
  | VNum n => pretty n
  | VStr s => s
  end.

(** [generateStoreKey] for the value [n] of the counter [nextStoreKey]. *)
Definition generateStoreKey (n : N) : StoreKey := "k" +:+ pretty n.

(** [_skToStatus[storeKey]] inside a bitwise expression. *)
Definition rawStatus (s : Store) (storeKey : StoreKey) : Z :=
  default 0 (skToStatus s !! storeKey).

(** [getStatus]: [_skToStatus[storeKey] || EMPTY] *)
Definition getStatus (s : Store) (storeKey : StoreKey) : Z :=
  if rawStatus s storeKey =? 0 then EMPTY else rawStatus s storeKey.

(** [mayHaveChanges] *)
Definition mayHaveChanges (s : Store) : Store := emit QueueCheckForChanges s.

(** [this.commitChanges()] from inside the store: the method is queued on the
    run loop and runs in a later phase. *)
Definition queueCommitChanges (s : Store) : Store :=
  if autoCommit s then emit QueueCommitChanges s else s.

(** [_recordDidChange] *)
Definition _recordDidChange (s : Store) (storeKey : StoreKey) : Store :=
  emit QueueFireTypeChanges
    (set_changedTypes
       ({[default "" (skToType s !! storeKey)]} ∪ changedTypes s) s).

(** [setStatus]; the record instance and the nested stores are told. *)
Definition setStatus (s : Store) (storeKey : StoreKey) (status : Z) : Store :=
  let previousStatus := getStatus s storeKey in
  if bool_decide (previousStatus = status) then s
  else
    let s := set_skToStatus (<[storeKey := status]> (skToStatus s)) s in
    let s :=
      if has (Z.lxor previousStatus status) READY
      then _recordDidChange s storeKey else s in
    emit (StatusDidChange storeKey previousStatus status) s.

(** [getStoreKey]; the empty id stands for a missing one. *)
Definition getStoreKey (s : Store) (accountId : AccountId) (type : TypeId)
  (id : Id) : result (Store * StoreKey) :=
  if bool_decide (accountId = "") then
    Throw "TypeError: accountId cannot be inferred"
  else
    match accounts s !! accountId with
    | None => Throw "TypeError: account is undefined"
    | Some account =>
        let idToSk := default ∅ (typeToIdToSK account !! type) in
        let found :=
          if bool_decide (id = "") then None
          else match idToSk !! id with
               | Some storeKey =>
                   if bool_decide (storeKey = "") then None else Some storeKey
               | None => None
               end in
        let withIdToSk (idToSk : gmap Id StoreKey) (s : Store) : Store :=
          set_accounts
            (<[accountId :=
                 mkAccount (accountCapabilities account) (accountStatus account)
                   (clientState account) (serverState account)
                   (<[type := idToSk]> (typeToIdToSK account))
                   (ignoreServerState account) (awaitingReady account)]>
               (accounts s)) s in
        match found with
        | Some storeKey => Ok (withIdToSk idToSk s, storeKey)
        | None =>
            let storeKey := generateStoreKey (nextStoreKey s) in
            let s := set_nextStoreKey (nextStoreKey s + 1)%N s in
            let s := set_skToType (<[storeKey := type]> (skToType s)) s in
            let s :=
              set_skToAccountId (<[storeKey := accountId]> (skToAccountId s))
                s in
            let skToId := default [] (typeToSKToId s !! type) in
            let s :=
              set_typeToSKToId
                (<[type := JsObject.set skToId storeKey id]> (typeToSKToId s))
                s in
            Ok (withIdToSk
                  (if bool_decide (id = "") then idToSk
                   else <[id := storeKey]> idToSk) s,
                storeKey)
        end
    end.

(** [getIdFromStoreKey]; [None] is [null]. *)
Definition getIdFromStoreKey (s : Store) (storeKey : StoreKey) : option Id :=
  if has (rawStatus s storeKey) NEW then None
  else
    type ← skToType s !! storeKey;
    skToId ← typeToSKToId s !! type;
    id ← JsObject.get skToId storeKey;
    if bool_decide (id = "") then None else Some id.

(** [getAccountIdFromStoreKey] *)
Definition getAccountIdFromStoreKey (s : Store) (storeKey : StoreKey)
  : Value :=
  match skToData s !! storeKey with
  | Some data => attr data "accountId"
  | None =>
      match skToAccountId s !! storeKey with
      | Some accountId => VStr accountId
      | None => VUndefined
      end
  end.

(** [addAccount (accountId, {replaceAccountId, accountCapabilities})] *)
Definition addAccount (s : Store) (accountId : AccountId)
  (replaceAccountId : AccountId) (capabilities : option (list string))
  : Store :=
  let replaced :=
    if bool_decide (replaceAccountId = "") then None
    else accounts s !! replaceAccountId in
  match replaced with
  | Some account =>
      let account :=
        match capabilities with
        | Some c =>
            mkAccount c (accountStatus account) (clientState account)
              (serverState account) (typeToIdToSK account)
              (ignoreServerState account) (awaitingReady account)
        | None => account
        end in
      let s :=
        set_skToAccountId
          ((fun a => if bool_decide (a = replaceAccountId) then accountId
                     else a) <$> skToAccountId s) s in
      set_accounts
        (<[accountId := account]> (delete replaceAccountId (accounts s))) s
  | None =>
      match accounts s !! accountId with
      | Some account => set_accounts (<[accountId := account]> (accounts s)) s
      | None =>
          set_accounts
            (<[accountId :=
                 mkAccount (default [] capabilities) ∅ ∅ ∅ ∅ false ∅]>
               (accounts s)) s
      end
  end.

(** [mayUnloadRecord] *)
Definition mayUnloadRecord (s : Store) (storeKey : StoreKey) : bool :=
  let status := getStatus s storeKey in
  if has status (Z.lor (Z.lor COMMITTING NEW) DIRTY) ||
     match skToRecord s !! storeKey with
     | Some record => hasObservers record
     | None => false
     end
  then false
  else forallb (fun store => nestedMayUnloadRecord store storeKey)
         (nestedStores s).

(** [willUnloadRecord]: the record instance, if any, and the nested stores
    are told. *)
Definition willUnloadRecord (s : Store) (storeKey : StoreKey) : Store :=
  emit (WillUnload storeKey) s.

(** [unloadRecord] *)
Definition unloadRecord (s : Store) (storeKey : StoreKey) : Store * bool :=
  if negb (mayUnloadRecord s storeKey) then (s, false)
  else
    let s := willUnloadRecord s storeKey in
    let s := set_skToLastAccess (delete storeKey (skToLastAccess s)) s in
    let s := set_skToRecord (delete storeKey (skToRecord s)) s in
    let s := set_skToRollback (delete storeKey (skToRollback s)) s in
    let s := set_skToData (delete storeKey (skToData s)) s in
    let s := set_skToStatus (delete storeKey (skToStatus s)) s in
    (s, true).

(** The two loops of [updateData] over the keys of the new data. With
    [committed] the change is dirty: [changed] records for each key that is
    written whether it now differs from the committed value. *)
Fixpoint writeDirty (committed : Data) (data : Data)
  (acc : Data * list string * list (string * bool) * bool)
  : Data * list string * list (string * bool) * bool :=
  match data with
  | [] => acc
  | (key, value) :: rest =>
      let '(current, changedKeys, changed, seenChange) := acc in
      if isEqual value (attr current key) then writeDirty committed rest acc
      else
        let isChanged := negb (isEqual value (attr committed key)) in
        writeDirty committed rest
          (JsObject.set current key value, changedKeys ++ [key],
           JsObject.set changed key isChanged, seenChange || isChanged)
  end.

Fixpoint writeClean (data : Data) (acc : Data * list string)
  : Data * list string :=
  match data with
  | [] => acc
  | (key, value) :: rest =>
      if isEqual value (attr acc.1 key) then writeClean rest acc
      else writeClean rest (JsObject.set acc.1 key value, acc.2 ++ [key])
  end.

(** [updateData]; [data] is [None] when the caller passes [undefined]. *)
Definition updateData (s : Store) (storeKey : StoreKey) (data : option Data)
  (changeIsDirty : bool) : result (Store * bool) :=
  let status := getStatus s storeKey in
  match skToData s !! storeKey with
  | None =>
      Ok (emit (DidError "O.Store Error: Cannot write to unready record") s,
          false)
  | Some current =>
      if changeIsDirty && negb (has status READY) then
        Ok (emit (DidError "O.Store Error: Cannot write to unready record") s,
            false)
      else
        let written : Store * list string :=
          if changeIsDirty && negb (bool_decide (status = READY_NEW_DIRTY))
          then
            let committed := default current (skToCommitted s !! storeKey) in
            let changed := default [] (JsObject.get (skToChanged s) storeKey) in
            let s :=
              set_skToCommitted (<[storeKey := committed]> (skToCommitted s))
                s in
            let s :=
              set_skToChanged (JsObject.set (skToChanged s) storeKey changed)
                s in
            let '(current, changedKeys, changed, seenChange) :=
              writeDirty committed (default [] data)
                (current, [], changed, false) in
            let s := set_skToData (<[storeKey := current]> (skToData s)) s in
            let s :=
              set_skToChanged (JsObject.set (skToChanged s) storeKey changed)
                s in
            let seenChange :=
              seenChange || existsb (fun kv : string * bool => kv.2) changed in
            let s :=
              if seenChange then
                queueCommitChanges (setStatus s storeKey (Z.lor status DIRTY))
              else
                let s := setStatus s storeKey (clear status DIRTY) in
                let s :=
                  set_skToCommitted (delete storeKey (skToCommitted s)) s in
                set_skToChanged (JsObject.del (skToChanged s) storeKey) s in
            (mayHaveChanges s, changedKeys)
          else
            let r := writeClean (default [] data) (current, []) in
            (set_skToData (<[storeKey := r.1]> (skToData s)) s, r.2) in
        match data with
        | None =>
            Throw "TypeError: Cannot read properties of undefined"
        | Some data =>
            let s := written.1 in
            let accountId := attr data "accountId" in
            let s :=
              if bool_decide (status = READY_NEW_DIRTY) && truthy accountId
              then set_skToAccountId
                     (<[storeKey := render accountId]> (skToAccountId s)) s
              else s in
            let s := emit (DataDidChange storeKey written.2) s in
            Ok (_recordDidChange s storeKey, true)
        end
  end.

(** [setData] *)
Definition setData (s : Store) (storeKey : StoreKey) (data : option Data)
  : result Store :=
  if has (getStatus s storeKey) READY then
    r ← updateData s storeKey data false;
    let r : Store * bool := r in
    Ok r.1
  else
    match data with
    | None => Throw "TypeError: Cannot convert undefined or null to object"
    | Some data =>
        let s := set_skToData (<[storeKey := data]> (skToData s)) s in
        Ok (emit (DataDidChange storeKey (JsObject.keys data)) s)
    end.

(** A loop whose body can throw. *)
Fixpoint foldM {A B : Type} (f : A -> B -> result A) (a : A) (l : list B)
  : result A :=
  match l with
  | [] => Ok a
  | x :: l' => a' ← f a x; foldM f a' l'
  end.

(** [createRecord] *)
Definition createRecord (s : Store) (storeKey : StoreKey) (data : option Data)
  (_isCopyOfStoreKey : StoreKey) : Store :=
  let status := getStatus s storeKey in
  if negb (bool_decide (status = EMPTY)) &&
     negb (bool_decide (status = DESTROYED))
  then emit (DidError "O.Store Error: Cannot create existing record") s
  else
    let data :=
      JsObject.set (default [] data) "accountId"
        (getAccountIdFromStoreKey s storeKey) in
    let s :=
      set_created (JsObject.set (created s) storeKey _isCopyOfStoreKey) s in
    let s := set_skToData (<[storeKey := data]> (skToData s)) s in
    let s := setStatus s storeKey READY_NEW_DIRTY in
    set_hasChanges true (queueCommitChanges s).

(** [destroyRecord] *)
Definition destroyRecord (s : Store) (storeKey : StoreKey)
  (_ifCopiedStoreKey : StoreKey) : result Store :=
  let status := getStatus s storeKey in
  if bool_decide (status = READY_NEW_DIRTY) then
    let s := set_created (JsObject.del (created s) storeKey) s in
    let s := setStatus s storeKey DESTROYED in
    Ok (mayHaveChanges (unloadRecord s storeKey).1)
  else if has status READY then
    s ← (if has status DIRTY then
           s ← setData s storeKey (skToCommitted s !! storeKey);
           let s := set_skToCommitted (delete storeKey (skToCommitted s)) s in
           Ok (set_skToChanged (JsObject.del (skToChanged s) storeKey) s)
         else Ok s);
    let s :=
      set_destroyed (JsObject.set (destroyed s) storeKey _ifCopiedStoreKey) s in
    let s :=
      setStatus s storeKey
        (Z.lor (Z.lor DESTROYED DIRTY)
           (Z.land status (Z.lor (Z.lor COMMITTING NEW) OBSOLETE))) in
    Ok (mayHaveChanges (queueCommitChanges s))
  else Ok (mayHaveChanges s).

Section WithSchema.

(** The record types known to the application. *)
Variable typeInfo : TypeId -> TypeInfo.

(** [undestroyRecord]; [type] is read only when [data] is given. *)
Definition undestroyRecord (s : Store) (storeKey : StoreKey) (type : TypeId)
  (data : option Data) (_isCopyOfStoreKey : StoreKey) : result Store :=
  let status := getStatus s storeKey in
  let data :=
    (fun data =>
       filterObject data (getClientSettableAttributes (typeInfo type)))
    <$> data in
  if bool_decide (status = EMPTY) || bool_decide (status = DESTROYED) then
    Ok (mayHaveChanges (createRecord s storeKey data _isCopyOfStoreKey))
  else
    let s :=
      if bool_decide (clear status (Z.lor OBSOLETE LOADING)
                      = Z.lor DESTROYED COMMITTING)
      then
        let s := setStatus s storeKey (Z.lor (Z.lor READY NEW) COMMITTING) in
        set_created (JsObject.set (created s) storeKey _isCopyOfStoreKey) s
      else if has status DESTROYED then
        let s :=
          setStatus s storeKey
            (Z.lor (clear status (Z.lor DESTROYED DIRTY)) READY) in
        set_destroyed (JsObject.del (destroyed s) storeKey) s
      else s in
    s ← match data with
        | Some data =>
            r ← updateData s storeKey (Some data) true;
            let r : Store * bool := r in
            Ok r.1
        | None => Ok s
        end;
    Ok (mayHaveChanges s).

(** [fetchData] *)
Definition fetchData (s : Store) (storeKey : StoreKey) : result Store :=
  let status := getStatus s storeKey in
  if has status (Z.lor (Z.lor (Z.lor LOADING NEW) DESTROYED) NON_EXISTENT)
  then Ok s
  else
    match skToType s !! storeKey with
    | None => Ok s
    | Some type =>
        match typeToSKToId s !! type with
        | None => Throw "TypeError: Cannot read properties of undefined"
        | Some skToId =>
            let id := default "" (JsObject.get skToId storeKey) in
            if bool_decide (id = "") then Ok s
            else
              let accountId := render (getAccountIdFromStoreKey s storeKey) in
              s ← (if bool_decide (id = "singleton") then
                     match accounts s !! accountId with
                     | None =>
                         Throw "TypeError: Cannot read properties of undefined"
                     | Some account =>
                         Ok (set_accounts
                               (<[accountId :=
                                    mkAccount (accountCapabilities account)
                                      (<[type :=
                                           Z.lor (default 0
                                                    (accountStatus account
                                                     !! type)) LOADING]>
                                         (accountStatus account))
                                      (clientState account)
                                      (serverState account)
                                      (typeToIdToSK account)
                                      (ignoreServerState account)
                                      (awaitingReady account)]>
                                  (accounts s)) s)
                     end
                   else Ok s);
              if has status EMPTY then
                Ok (setStatus (emit (SourceFetchRecord accountId type id) s)
                      storeKey (Z.lor EMPTY LOADING))
              else
                Ok (setStatus (emit (SourceRefreshRecord accountId type id) s)
                      storeKey (Z.lor status LOADING))
        end
    end.

(** The loop of [revertData]: a changed key that the committed data lacks
    gets the default value of its attribute, or [null]. *)
Definition fillDefault (type : TypeId) (committed : Data) (attrKey : string)
  : result Data :=
  if bool_decide (attr committed attrKey = VUndefined) then
    match filter (fun a => Store.attrKey a = attrKey) (attrs (typeInfo type))
    with
    | a :: _ =>
        Ok (JsObject.set committed attrKey
              (if bool_decide (defaultValue a = VUndefined) then VNull
               else defaultValue a))
    | [] => Throw "TypeError: Cannot read properties of undefined"
    end
  else Ok committed.

(** [revertData] *)
Definition revertData (s : Store) (storeKey : StoreKey) : result Store :=
  match skToCommitted s !! storeKey with
  | None => Ok s
  | Some committed =>
      let changed := default [] (JsObject.get (skToChanged s) storeKey) in
      committed ← foldM (fillDefault (default "" (skToType s !! storeKey)))
                    committed (JsObject.keys changed);
      let s :=
        set_skToCommitted (<[storeKey := committed]> (skToCommitted s)) s in
      r ← updateData s storeKey (Some committed) true;
      let r : Store * bool := r in
      Ok r.1
  end.

(** [_changeRecordStoreKey]; the record and the nested stores are told. *)
Definition _changeRecordStoreKey (s : Store) (oldStoreKey newStoreKey : StoreKey)
  : Store :=
  let s :=
    match skToRecord s !! oldStoreKey with
    | Some record =>
        set_skToRecord
          (<[newStoreKey := record]> (delete oldStoreKey (skToRecord s))) s
    | None => s
    end in
  emit (StoreKeyDidChange oldStoreKey newStoreKey) s.

(** [moveRecord]; an empty [copyStoreKey] stands for a missing argument. *)
Definition moveRecord (s : Store) (storeKey : StoreKey)
  (toAccountId : AccountId) (copyStoreKey : StoreKey)
  : result (Store * StoreKey) :=
  let type := default "" (skToType s !! storeKey) in
  let copyData := skToData s !! storeKey in
  let copyStoreKey :=
    if bool_decide (copyStoreKey = "")
    then default "" (JsObject.get (created s) storeKey)
    else copyStoreKey in
  r ← (if bool_decide (copyStoreKey = "") then
         r ← getStoreKey s toAccountId type "";
         let r : Store * StoreKey := r in
         Ok (createRecord r.1 r.2 copyData storeKey, r.2)
       else
         s ← undestroyRecord s copyStoreKey type copyData storeKey;
         Ok (s, copyStoreKey));
  let r : Store * StoreKey := r in
  let s := _changeRecordStoreKey r.1 storeKey r.2 in
  s ← revertData s storeKey;
  s ← destroyRecord s storeKey r.2;
  Ok (s, r.2).

(** [checkForChanges] *)
Definition checkForChanges (s : Store) : Store :=
  set_hasChanges
    (negb (bool_decide (created s = [])) ||
     negb (bool_decide (skToChanged s = [])) ||
     negb (bool_decide (destroyed s = []))) s.

(** [discardChanges] *)
Definition discardChanges (s : Store) : result Store :=
  s ← foldM (fun s storeKey => destroyRecord s storeKey "") s
        (JsObject.keys (created s));
  s ← foldM (fun s storeKey =>
               r ← updateData s storeKey (skToCommitted s !! storeKey) true;
               let r : Store * bool := r in
               Ok r.1)
        s (JsObject.keys (skToChanged s));
  s ← foldM (fun s storeKey =>
               undestroyRecord s storeKey
                 (default "" (skToType s !! storeKey))
                 (skToData s !! storeKey) "")
        s (JsObject.keys (destroyed s));
  Ok (set_hasChanges false (set_destroyed [] (set_created [] s))).

(** *** The commit *)

(** [account.status[typeId]] with one bit set or cleared. *)
Definition withAccountStatus (account : Account) (type : TypeId)
  (f : Z -> Z) : Account :=
  mkAccount (accountCapabilities account)
    (<[type := f (default 0 (accountStatus account !! type))]>
       (accountStatus account))
    (clientState account) (serverState account) (typeToIdToSK account)
    (ignoreServerState account) (awaitingReady account).

Definition withClientState (account : Account) (type : TypeId)
  (state : string) : Account :=
  mkAccount (accountCapabilities account) (accountStatus account)
    (<[type := state]> (clientState account)) (serverState account)
    (typeToIdToSK account) (ignoreServerState account) (awaitingReady account).

Definition withServerState (account : Account) (type : TypeId)
  (state : string) : Account :=
  mkAccount (accountCapabilities account) (accountStatus account)
    (clientState account) (<[type := state]> (serverState account))
    (typeToIdToSK account) (ignoreServerState account) (awaitingReady account).

(** [toId] *)
Definition toId (s : Store) (storeKey : StoreKey) : Id :=
  default ("#" +:+ storeKey) (getIdFromStoreKey s storeKey).

(** [convertForeignKeysToId]; [None] is [undefined], on which the [in] of the
    loop throws. *)
Definition convertForeignKeysToId (s : Store) (type : TypeId)
  (data : option Data) : result (option Data) :=
  match getForeignRefAttrs (typeInfo type), data with
  | [], _ => Ok data
  | _ :: _, None => Throw "TypeError: Cannot use 'in' operator"
  | refs, Some data =>
      Ok (Some
            (foldl
               (fun result ref =>
                  if JsObject.has data ref.1 then
                    let value := attr data ref.1 in
                    JsObject.set result ref.1
                      (if truthy value then VStr (toId s (render value))
                       else value)
                  else result)
               data refs))
  end.

(** [convertForeignKeysToSK]: the ids of the references become store keys,
    which the store mints when it has none for an id. *)
Definition convertForeignKeysToSK (s : Store)
  (foreignRefAttrs : list (string * TypeId)) (data : Data)
  (accountId : AccountId) : result (Store * Data) :=
  foldM
    (fun (acc : Store * Data) (ref : string * TypeId) =>
       if JsObject.has acc.2 ref.1 then
         let value := attr acc.2 ref.1 in
         if truthy value then
           r ← getStoreKey acc.1 accountId ref.2 (render value);
           let r : Store * StoreKey := r in
           Ok (r.1, JsObject.set acc.2 ref.1 (VStr r.2))
         else Ok acc
       else Ok acc)
    (s, data) foreignRefAttrs.

(** [getChanged (Type, a, b)]; [None] is [null]. *)
Definition getChanged (type : TypeId) (a : Data) (b : option Data)
  : result (option (list (string * bool))) :=
  let clientSettable := getClientSettableAttributes (typeInfo type) in
  changed ←
    foldM
      (fun (changed : list (string * bool)) (kv : string * Value) =>
         if bool_decide (kv.1 ∈ clientSettable) then
           match b with
           | None => Throw "TypeError: Cannot read properties of undefined"
           | Some b =>
               if isEqual kv.2 (attr b kv.1) then Ok changed
               else Ok (JsObject.set changed kv.1 true)
           end
         else Ok changed)
      [] a;
  Ok (if bool_decide (changed = []) then None else Some changed).

(** [getEntry]: the entry of the pair, made on first use, when the type of
    the account becomes COMMITTING. *)
Definition getEntry (acc : list (string * Changes) * Store) (type : TypeId)
  (accountId : AccountId) : result (list (string * Changes) * Store) :=
  match JsObject.get acc.1 (type +:+ accountId) with
  | Some _ => Ok acc
  | None =>
      match accounts acc.2 !! accountId with
      | None => Throw "TypeError: Cannot read properties of undefined"
      | Some account =>
          Ok (JsObject.set acc.1 (type +:+ accountId)
                (mkChanges type accountId (clientState account !! type)
                   [] [] [] []),
              set_accounts
                (<[accountId :=
                     withAccountStatus account type
                       (fun status => Z.lor status COMMITTING)]>
                   (accounts acc.2)) acc.2)
      end
  end.

(** An entry with one more item in one of its parts. *)
Definition pushTo (changes : list (string * Changes)) (type : TypeId)
  (accountId : AccountId) (f : Changes -> Changes)
  : list (string * Changes) :=
  match JsObject.get changes (type +:+ accountId) with
  | Some entry => JsObject.set changes (type +:+ accountId) (f entry)
  | None => changes
  end.

(** The status that [commitChanges] gives each record it handles. *)
Definition committingStatus (status : Z) : Z :=
  Z.lor (clear status DIRTY) COMMITTING.

(** The loop over [_created] *)
Definition commitCreated (acc : list (string * Changes) * Store)
  (kv : StoreKey * StoreKey) : result (list (string * Changes) * Store) :=
  let storeKey := kv.1 in
  let isCopyOfStoreKey := kv.2 in
  let s := acc.2 in
  let status := rawStatus s storeKey in
  let type := default "" (skToType s !! storeKey) in
  match skToData s !! storeKey with
  | None => Throw "TypeError: Cannot read properties of undefined"
  | Some data =>
      let accountId := render (attr data "accountId") in
      acc ← getEntry acc type accountId;
      let acc : list (string * Changes) * Store := acc in
      let s := acc.2 in
      changes ←
        (if bool_decide (isCopyOfStoreKey = "") then
           sent ← convertForeignKeysToId s type (Some data);
           let sent :=
             (fun d : Data =>
                filterObject d (getClientSettableAttributes (typeInfo type)))
             <$> sent in
           Ok (pushTo acc.1 type accountId
                 (fun e =>
                    mkChanges (changesType e) (changesAccountId e)
                      (changesState e)
                      (changesCreate e ++ [(storeKey, sent)])
                      (changesUpdate e) (changesMove e) (changesDestroy e)))
         else
           changed ← getChanged type data (skToData s !! isCopyOfStoreKey);
           sent ← convertForeignKeysToId s type (Some data);
           let previousAccountId :=
             render (getAccountIdFromStoreKey s isCopyOfStoreKey) in
           Ok (pushTo acc.1 type accountId
                 (fun e =>
                    mkChanges (changesType e) (changesAccountId e)
                      (changesState e) (changesCreate e) (changesUpdate e)
                      (changesMove e
                       ++ [(previousAccountId,
                            getIdFromStoreKey s isCopyOfStoreKey, storeKey,
                            sent, changed)])
                      (changesDestroy e))));
      Ok (changes, setStatus s storeKey (committingStatus status))
  end.

(** The loop over [_skToChanged] *)
Definition commitUpdated (acc : list (string * Changes) * Store)
  (kv : StoreKey * list (string * bool))
  : result (list (string * Changes) * Store) :=
  let storeKey := kv.1 in
  let s := acc.2 in
  let status := rawStatus s storeKey in
  let type := default "" (skToType s !! storeKey) in
  let changed :=
    filterObject kv.2 (getClientSettableAttributes (typeInfo type)) in
  let previous := skToCommitted s !! storeKey in
  let s := set_skToCommitted (delete storeKey (skToCommitted s)) s in
  if bool_decide (changed = []) then
    Ok (acc.1, setStatus s storeKey (clear status DIRTY))
  else
    match skToData s !! storeKey with
    | None => Throw "TypeError: Cannot read properties of undefined"
    | Some data =>
        let accountId := render (attr data "accountId") in
        acc ← getEntry (acc.1, s) type accountId;
        let acc : list (string * Changes) * Store := acc in
        let s := acc.2 in
        let s :=
          set_skToRollback
            (match previous with
             | Some previous => <[storeKey := previous]> (skToRollback s)
             | None => delete storeKey (skToRollback s)
             end) s in
        previous ← convertForeignKeysToId s type previous;
        sent ← convertForeignKeysToId s type (Some data);
        Ok (pushTo acc.1 type accountId
              (fun e =>
                 mkChanges (changesType e) (changesAccountId e)
                   (changesState e) (changesCreate e)
                   (changesUpdate e ++ [(storeKey, sent, previous, changed)])
                   (changesMove e) (changesDestroy e)),
            setStatus s storeKey (committingStatus status))
    end.

(** The loop over [_destroyed] *)
Definition commitDestroyed (acc : list (string * Changes) * Store)
  (kv : StoreKey * StoreKey) : result (list (string * Changes) * Store) :=
  let storeKey := kv.1 in
  let ifCopiedStoreKey := kv.2 in
  let s := acc.2 in
  let status := rawStatus s storeKey in
  acc ←
    (if bool_decide (ifCopiedStoreKey = "") ||
        bool_decide (default "" (JsObject.get (created s) ifCopiedStoreKey)
                     = "")
     then
       let type := default "" (skToType s !! storeKey) in
       match skToData s !! storeKey, typeToSKToId s !! type with
       | Some data, Some skToId =>
           let accountId := render (attr data "accountId") in
           acc ← getEntry acc type accountId;
           let acc : list (string * Changes) * Store := acc in
           Ok (pushTo acc.1 type accountId
                 (fun e =>
                    mkChanges (changesType e) (changesAccountId e)
                      (changesState e) (changesCreate e) (changesUpdate e)
                      (changesMove e)
                      (changesDestroy e
                       ++ [(storeKey,
                            default "" (JsObject.get skToId storeKey))])),
               acc.2)
       | _, _ => Throw "TypeError: Cannot read properties of undefined"
       end
     else Ok acc);
  let acc : list (string * Changes) * Store := acc in
  Ok (acc.1, setStatus acc.2 storeKey (committingStatus status)).

(** [commitChanges], when the run loop runs it. *)
Definition commitChanges (s : Store) : result Store :=
  if isCommitting s then Ok s
  else
    let s := emit (Fire "willCommit") (set_isCommitting true s) in
    acc ← foldM commitCreated ([], s) (created s);
    let acc : list (string * Changes) * Store := acc in
    acc ← foldM commitUpdated acc (skToChanged acc.2);
    let acc : list (string * Changes) * Store := acc in
    acc ← foldM commitDestroyed acc (destroyed acc.2);
    let acc : list (string * Changes) * Store := acc in
    let s := set_destroyed [] (set_created [] (set_skToChanged [] acc.2)) in
    let s :=
      if bool_decide (acc.1 = []) then set_isCommitting false s
      else emit (SourceCommitChanges acc.1) s in
    Ok (emit (Fire "didCommit") (set_hasChanges false s)).

(** *** State tokens of a type *)

(** [getAccount (accountId, Type)] *)
Definition getAccount (s : Store) (accountId : AccountId) : result Account :=
  if bool_decide (accountId = "") then
    Throw "TypeError: accountId cannot be inferred"
  else
    match accounts s !! accountId with
    | Some account => Ok account
    | None => Throw "TypeError: Cannot read properties of undefined"
    end.

Definition setAccount (s : Store) (accountId : AccountId) (account : Account)
  : Store :=
  set_accounts (<[accountId := account]> (accounts s)) s.

(** [fetchAll (accountId, Type, force)] for one account *)
Definition fetchAll (s : Store) (accountId : AccountId) (type : TypeId)
  (force : bool) : result Store :=
  account ← getAccount s accountId;
  let status := default 0 (accountStatus account !! type) in
  if negb (has status LOADING) && (negb (has status READY) || force) then
    let s :=
      emit (SourceFetchAllRecords accountId type (clientState account !! type))
        s in
    Ok (setAccount s accountId
          (withAccountStatus account type (fun st => Z.lor st LOADING)))
  else Ok s.

(** [sourceStateDidChange]; a missing state token is the empty string. *)
Definition sourceStateDidChange (s : Store) (accountId : AccountId)
  (type : TypeId) (newState : string) : result Store :=
  account ← getAccount s accountId;
  let clientState := default "" (clientState account !! type) in
  let oldState := default "" (serverState account !! type) in
  if bool_decide (oldState = newState) then Ok s
  else
    let s :=
      setAccount s accountId
        (withServerState account type
           (if negb (bool_decide (oldState = "")) ||
               bool_decide (clientState = "")
            then newState else clientState)) in
    if negb (bool_decide (newState = clientState)) &&
       negb (ignoreServerState account) &&
       negb (has (default 0 (accountStatus account !! type))
               (Z.lor LOADING COMMITTING))
    then
      s ← (if bool_decide (clientState = "") then Ok s
           else fetchAll s accountId type true);
      Ok (emit (Fire (type +:+ ":server:" +:+ accountId)) s)
    else Ok s.

(** [checkServerState] *)
Definition checkServerState (s : Store) (accountId : AccountId)
  (type : TypeId) : result Store :=
  account ← getAccount s accountId;
  let serverState := default "" (serverState account !! type) in
  if bool_decide (serverState = "") then Ok s
  else
    sourceStateDidChange
      (setAccount s accountId (withServerState account type ""))
      accountId type serverState.

(** The callback that [fetchAll] and [fetchData] hand to the source. *)
Definition fetchDone (s : Store) (accountId : AccountId) (type : TypeId)
  : result Store :=
  account ← getAccount s accountId;
  checkServerState
    (setAccount s accountId
       (withAccountStatus account type (fun st => clear st LOADING)))
    accountId type.

(** The callback that [commitChanges] hands to the source. *)
Definition commitDone (s : Store) (changes : list (string * Changes))
  : result Store :=
  s ← foldM
        (fun s (entry : string * Changes) =>
           let accountId := changesAccountId entry.2 in
           let type := changesType entry.2 in
           account ← getAccount s accountId;
           checkServerState
             (setAccount s accountId
                (withAccountStatus account type
                   (fun st => clear st COMMITTING)))
             accountId type)
        s changes;
  let s := set_isCommitting false s in
  if autoCommit s then
    let s := checkForChanges s in
    Ok (if hasChanges s then emit QueueCommitChanges s else s)
  else Ok s.

(** *** The callbacks of the source for fetched records *)

(** [sourceDidDestroyRecords] *)
Definition sourceDidDestroyRecords (s : Store) (accountId : AccountId)
  (type : TypeId) (ids : list Id) : result Store :=
  foldM
    (fun s id =>
       r ← getStoreKey s accountId type id;
       let r : Store * StoreKey := r in
       if bool_decide (getIdFromStoreKey r.1 r.2 = Some id) then
         Ok (unloadRecord (setStatus r.1 r.2 DESTROYED) r.2).1
       else Ok r.1)
    s (reverse ids).

(** [sourceDidModifyRecords] *)
Definition sourceDidModifyRecords (s : Store) (accountId : AccountId)
  (type : TypeId) (ids : list Id) : result Store :=
  foldM
    (fun s id =>
       r ← getStoreKey s accountId type id;
       let r : Store * StoreKey := r in
       let status := getStatus r.1 r.2 in
       Ok (if has status READY
           then setStatus r.1 r.2 (Z.lor status OBSOLETE) else r.1))
    s (reverse ids).

(** [sourceCouldNotFindRecords] *)
Definition sourceCouldNotFindRecords (s : Store) (accountId : AccountId)
  (type : TypeId) (ids : list Id) : result Store :=
  s ← foldM
        (fun s id =>
           r ← getStoreKey s accountId type id;
           let r : Store * StoreKey := r in
           let s := r.1 in
           let storeKey := r.2 in
           let status := getStatus s storeKey in
           if has status (Z.lor EMPTY NON_EXISTENT) then
             Ok (setStatus s storeKey NON_EXISTENT)
           else
             s ← (if has status DIRTY then
                    s ← setData s storeKey (skToCommitted s !! storeKey);
                    let s :=
                      set_skToCommitted (delete storeKey (skToCommitted s))
                        s in
                    Ok (set_skToChanged
                          (JsObject.del (skToChanged s) storeKey) s)
                  else Ok s);
             Ok (unloadRecord (setStatus s storeKey DESTROYED) storeKey).1)
        s (reverse ids);
  Ok (mayHaveChanges s).

(** The rebase of [sourceDidFetchPartialRecords]: the loop over the keys of
    the current data. The result is [newData], [newChanged] and [clean]. *)
Definition rebaseStep (oldChanged : list (string * bool)) (update : Data)
  (acc : Data * list (string * bool) * bool) (kv : string * Value)
  : Data * list (string * bool) * bool :=
  let '(newData, newChanged, clean) := acc in
  if JsObject.has oldChanged kv.1 then
    if isEqual kv.2 (attr update kv.1)
    then (JsObject.set newData kv.1 kv.2, newChanged, clean)
    else (JsObject.set newData kv.1 kv.2, JsObject.set newChanged kv.1 true,
          false)
  else (JsObject.set newData kv.1 (attr update kv.1), newChanged, clean).

(** The id maps of an account and a type, after the server renamed a
    record. *)
Definition renameId (s : Store) (accountId : AccountId) (type : TypeId)
  (storeKey : StoreKey) (newId : Id) : Store :=
  let s :=
    match typeToSKToId s !! type with
    | Some skToId =>
        set_typeToSKToId
          (<[type := JsObject.set skToId storeKey newId]> (typeToSKToId s)) s
    | None => s
    end in
  match accounts s !! accountId with
  | Some account =>
      match typeToIdToSK account !! type with
      | Some idToSk =>
          setAccount s accountId
            (mkAccount (accountCapabilities account) (accountStatus account)
               (clientState account) (serverState account)
               (<[type := <[newId := storeKey]> idToSk]>
                  (typeToIdToSK account))
               (ignoreServerState account) (awaitingReady account))
      | None => s
      end
  | None => s
  end.

(** One turn of the loop of [sourceDidFetchPartialRecords]. *)
Definition fetchedPartialRecord (accountId : AccountId) (type : TypeId)
  (_idsAreSKs : bool) (s : Store) (item : Id * option Data) : result Store :=
  account ← getAccount s accountId;
  let id := item.1 in
  let storeKey :=
    default "" (default ∅ (typeToIdToSK account !! type) !! id) in
  let status := rawStatus s storeKey in
  match item.2 with
  | None => Ok s
  | Some update =>
      if negb (has status READY) then Ok s
      else if has status COMMITTING then
        fetchData (setStatus s storeKey (clear status LOADING)) storeKey
      else
        r ← convertForeignKeysToSK s
              (if _idsAreSKs then [] else getForeignRefAttrs (typeInfo type))
              update accountId;
        let r : Store * Data := r in
        let s := r.1 in
        let update := r.2 in
        let newId := attr update (primaryKey (typeInfo type)) in
        let s :=
          if truthy newId && negb (bool_decide (newId = VStr id))
          then renameId s accountId type storeKey (render newId) else s in
        let plain (s : Store) (update : Data) : result Store :=
          r ← updateData s storeKey (Some update) false;
          let r : Store * bool := r in
          Ok (setStatus r.1 storeKey READY) in
        if has status DIRTY then
          match skToCommitted s !! storeKey with
          | None => Throw "TypeError: Cannot convert undefined to object"
          | Some committed =>
              let update := JsObject.assign committed update in
              let s :=
                set_skToCommitted (<[storeKey := update]> (skToCommitted s))
                  s in
              let discard (s : Store) : result Store :=
                plain
                  (set_skToCommitted (delete storeKey (skToCommitted s))
                     (set_skToChanged (JsObject.del (skToChanged s) storeKey)
                        s))
                  update in
              if rebaseConflicts s then
                match skToData s !! storeKey,
                      JsObject.get (skToChanged s) storeKey with
                | Some oldData, Some oldChanged =>
                    let '(newData, newChanged, clean) :=
                      foldl (rebaseStep oldChanged update) ([], [], true)
                        oldData in
                    if clean then discard s
                    else
                      let s :=
                        set_skToChanged
                          (JsObject.set (skToChanged s) storeKey newChanged)
                          s in
                      s ← setData s storeKey (Some newData);
                      Ok (setStatus s storeKey (Z.lor READY DIRTY))
                | None, _ => discard s
                | Some [], None => discard s
                | Some (_ :: _), None =>
                    Throw "TypeError: Cannot use 'in' operator"
                end
              else discard s
          end
        else plain s update
  end.

(** [sourceDidFetchPartialRecords]; [updates] in the order of its keys. *)
Definition sourceDidFetchPartialRecords (s : Store) (accountId : AccountId)
  (type : TypeId) (updates : list (Id * option Data)) (_idsAreSKs : bool)
  : result Store :=
  _ ← getAccount s accountId;
  s ← foldM (fetchedPartialRecord accountId type _idsAreSKs) s updates;
  Ok (mayHaveChanges s).

(** The id of a fetched record: [data[idAttrKey]]. *)
Definition idOf (type : TypeId) (data : Data) : Id :=
  let id := attr data (primaryKey (typeInfo type)) in
  if truthy id then render id else "".

(** One turn of the first loop of [sourceDidFetchRecords]. The state is the
    store, the store keys seen and the updates for the records that are
    already loaded. *)
Definition fetchedRecord (accountId : AccountId) (type : TypeId) (now : Z)
  (acc : Store * gset StoreKey * list (Id * option Data)) (data : Data)
  : result (Store * gset StoreKey * list (Id * option Data)) :=
  let '(s, seen, updates) := acc in
  let id := idOf type data in
  r ← getStoreKey s accountId type id;
  let r : Store * StoreKey := r in
  let s := r.1 in
  let storeKey := r.2 in
  let status := getStatus s storeKey in
  let seen := {[storeKey]} ∪ seen in
  r ← convertForeignKeysToSK s (getForeignRefAttrs (typeInfo type)) data
        accountId;
  let r : Store * Data := r in
  let s := r.1 in
  let data := JsObject.set r.2 "accountId" (VStr accountId) in
  if has status READY then
    Ok (s, seen, JsObject.set updates id (Some data))
  else if has status DESTROYED && has status (Z.lor DIRTY COMMITTING) then
    let s := set_skToData (<[storeKey := data]> (skToData s)) s in
    Ok (setStatus s storeKey (clear status LOADING), seen, updates)
  else
    let s := if has status EMPTY then s else setStatus s storeKey EMPTY in
    s ← setData s storeKey (Some data);
    let s := setStatus s storeKey READY in
    Ok (set_skToLastAccess (<[storeKey := now]> (skToLastAccess s)) s,
        seen, updates).

(** Is a record that the response does not list one that the server has
    destroyed? *)
Definition isMissing (s : Store) (accountId : AccountId)
  (storeKey : StoreKey) : result bool :=
  let status := getStatus s storeKey in
  if has status READY && negb (has status NEW) then
    match skToData s !! storeKey with
    | None => Throw "TypeError: Cannot read properties of undefined"
    | Some data =>
        Ok (bool_decide (attr data "accountId" = VStr accountId))
    end
  else Ok false.

(** The loop over the store keys of the type when [isAll] is set: the ids
    of the missing records. *)
Definition missingIds (s : Store) (accountId : AccountId) (type : TypeId)
  (seen : gset StoreKey) : result (list Id) :=
  foldM
    (fun (destroyed : list Id) (kv : StoreKey * Id) =>
       if bool_decide (kv.1 ∈ seen) then Ok destroyed
       else
         missing ← isMissing s accountId kv.1;
         Ok (if missing : bool then destroyed ++ [kv.2] else destroyed))
    [] (default [] (typeToSKToId s !! type)).

(** [sourceDidFetchRecords]; [now] is the clock, an empty [state] a missing
    one. *)
Definition sourceDidFetchRecords (s : Store) (accountId : AccountId)
  (type : TypeId) (records : list Data) (state : string) (isAll : bool)
  (now : Z) : result Store :=
  if bool_decide (accountId = "") then
    Throw "TypeError: accountId cannot be inferred"
  else
    acc ← foldM (fetchedRecord accountId type now) (s, ∅, [])
            (reverse records);
    let '(s, seen, updates) := acc in
    s ← (if isAll then
           destroyed ← missingIds s accountId type seen;
           match destroyed with
           | [] => Ok s
           | _ :: _ => sourceDidDestroyRecords s accountId type destroyed
           end
         else Ok s);
    s ← sourceDidFetchPartialRecords s accountId type updates true;
    account ← getAccount s accountId;
    s ← (if bool_decide (state = "") then Ok s
         else
           let oldClientState := default "" (clientState account !! type) in
           let oldServerState := default "" (serverState account !! type) in
           if negb isAll && negb (bool_decide (oldClientState = "")) &&
              negb (bool_decide (oldClientState = state))
           then sourceStateDidChange s accountId type state
           else
             let account := withClientState account type state in
             Ok (setAccount s accountId
                   (if bool_decide (oldClientState = "") ||
                       bool_decide (oldServerState = "") ||
                       bool_decide (oldClientState = oldServerState)
                    then withServerState account type state else account)));
    account ← getAccount s accountId;
    let account := withAccountStatus account type (fun st => Z.lor st READY) in
    let s :=
      setAccount s accountId
        (mkAccount (accountCapabilities account) (accountStatus account)
           (clientState account) (serverState account) (typeToIdToSK account)
           (ignoreServerState account) (awaitingReady account ∖ {[type]})) in
    Ok (emit QueueFireTypeChanges
          (set_changedTypes ({[type]} ∪ changedTypes s) s)).

(** [sourceDidFetchUpdates] *)
Definition sourceDidFetchUpdates (s : Store) (accountId : AccountId)
  (type : TypeId) (changed destroyed : list Id) (oldState newState : string)
  : result Store :=
  account ← getAccount s accountId;
  if bool_decide (oldState = default "" (clientState account !! type)) then
    s ← (match changed with
         | [] => Ok s
         | _ :: _ => sourceDidModifyRecords s accountId type changed
         end);
    s ← (match destroyed with
         | [] => Ok s
         | _ :: _ => sourceDidDestroyRecords s accountId type destroyed
         end);
    account ← getAccount s accountId;
    let s :=
      if negb (bool_decide (oldState = newState)) &&
         negb (bool_decide
                 (newState = default "" (serverState account !! type)))
      then emit (Fire (type +:+ ":server:" +:+ accountId)) s else s in
    let account := withClientState account type newState in
    Ok (setAccount s accountId
          (if bool_decide (default "" (serverState account !! type) = oldState)
           then withServerState account type newState else account))
  else sourceStateDidChange s accountId type newState.

(** [sourceCommitDidChangeState] *)
Definition sourceCommitDidChangeState (s : Store) (accountId : AccountId)
  (type : TypeId) (oldState newState : string) : result Store :=
  account ← getAccount s accountId;
  if bool_decide (default "" (clientState account !! type) = oldState) then
    let account := withClientState account type newState in
    Ok (setAccount s accountId
          (if bool_decide (default "" (serverState account !! type) = oldState)
           then withServerState account type newState else account))
  else sourceStateDidChange s accountId type newState.

(** *** The callbacks of the source for a commit *)

(** [isPermanent && (!errors || !this._notifyRecordOfError(storeKey,
    errors[i]))]: the listeners of [record:commit:error] answer whether they
    prevented the default; [errors] holds their answer for each store key. *)
Definition shouldRevert (s : Store) (isPermanent : bool)
  (errors : option (list bool)) (i : nat) : result (Store * bool) :=
  if isPermanent then
    match errors with
    | None => Ok (s, true)
    | Some errors =>
        match errors !! i with
        | None => Throw "TypeError: Cannot read properties of undefined"
        | Some prevented =>
            Ok (emit (Fire "record:commit:error") s, negb prevented)
        end
    end
  else Ok (s, false).

(** The store keys of a callback with their positions, last one first. *)
Definition backwards (storeKeys : list StoreKey) : list (nat * StoreKey) :=
  reverse (zip (seq 0 (length storeKeys)) storeKeys).

(** [sourceDidCommitCreate] *)
Definition sourceDidCommitCreate (s : Store)
  (skToPartialData : list (StoreKey * Data)) : result Store :=
  s ← foldM
        (fun s (kv : StoreKey * Data) =>
           let storeKey := kv.1 in
           let status := getStatus s storeKey in
           if has status NEW then
             let type := default "" (skToType s !! storeKey) in
             match skToData s !! storeKey with
             | None => Throw "TypeError: Cannot read properties of undefined"
             | Some current =>
                 let accountId := render (attr current "accountId") in
                 let id := render (attr kv.2 (primaryKey (typeInfo type))) in
                 account ← getAccount s accountId;
                 let s :=
                   set_typeToSKToId
                     (<[type :=
                          JsObject.set (default [] (typeToSKToId s !! type))
                            storeKey id]> (typeToSKToId s)) s in
                 let s :=
                   setAccount s accountId
                     (mkAccount (accountCapabilities account)
                        (accountStatus account) (clientState account)
                        (serverState account)
                        (<[type :=
                             <[id := storeKey]>
                               (default ∅ (typeToIdToSK account !! type))]>
                           (typeToIdToSK account))
                        (ignoreServerState account) (awaitingReady account)) in
                 r ← convertForeignKeysToSK s
                       (getForeignRefAttrs (typeInfo type)) kv.2 accountId;
                 let r : Store * Data := r in
                 r ← updateData r.1 storeKey (Some r.2) false;
                 let r : Store * bool := r in
                 Ok (setStatus r.1 storeKey
                       (clear status (Z.lor COMMITTING NEW)))
             end
           else
             Ok (emit (DidError "O.Store Error: Source committed a create on a record not marked new") s))
        s skToPartialData;
  Ok (queueCommitChanges s).

(** [sourceDidNotCreate] *)
Definition sourceDidNotCreate (s : Store) (storeKeys : list StoreKey)
  (isPermanent : bool) (errors : option (list bool)) : result Store :=
  s ← foldM
        (fun s (item : nat * StoreKey) =>
           let storeKey := item.2 in
           let status := getStatus s storeKey in
           if has status DESTROYED then
             Ok (unloadRecord (setStatus s storeKey DESTROYED) storeKey).1
           else
             let s :=
               if has status DIRTY then
                 set_skToChanged (JsObject.del (skToChanged s) storeKey)
                   (set_skToCommitted (delete storeKey (skToCommitted s)) s)
               else s in
             let s := setStatus s storeKey READY_NEW_DIRTY in
             let s := set_created (JsObject.set (created s) storeKey "") s in
             r ← shouldRevert s isPermanent errors item.1;
             let r : Store * bool := r in
             if r.2 then destroyRecord r.1 storeKey "" else Ok r.1)
        s (backwards storeKeys);
  Ok (mayHaveChanges (queueCommitChanges s)).

(** [sourceDidCommitUpdate] *)
Definition sourceDidCommitUpdate (s : Store) (storeKeys : list StoreKey)
  : Store :=
  queueCommitChanges
    (foldl
       (fun s storeKey =>
          let status := getStatus s storeKey in
          let s := set_skToRollback (delete storeKey (skToRollback s)) s in
          if bool_decide (status = EMPTY) then s
          else setStatus s storeKey (clear status COMMITTING))
       s (reverse storeKeys)).

(** [sourceDidNotUpdate] *)
Definition sourceDidNotUpdate (s : Store) (storeKeys : list StoreKey)
  (isPermanent : bool) (errors : option (list bool)) : result Store :=
  s ← foldM
        (fun s (item : nat * StoreKey) =>
           let storeKey := item.2 in
           let status := getStatus s storeKey in
           let s :=
             match skToRollback s !! storeKey with
             | Some rollback =>
                 if has status DESTROYED then
                   set_skToRollback (delete storeKey (skToRollback s))
                     (set_skToData (<[storeKey := rollback]> (skToData s)) s)
                 else s
             | None => s
             end in
           if negb (has status READY) then
             Ok (if bool_decide (status = EMPTY) then s
                 else setStatus s storeKey (clear status COMMITTING))
           else
             let committed := skToRollback s !! storeKey in
             let s :=
               set_skToCommitted
                 (match committed with
                  | Some c => <[storeKey := c]> (skToCommitted s)
                  | None => delete storeKey (skToCommitted s)
                  end) s in
             let s := set_skToRollback (delete storeKey (skToRollback s)) s in
             let s :=
               set_skToChanged (JsObject.del (skToChanged s) storeKey) s in
             changed ←
               getChanged (default "" (skToType s !! storeKey))
                 (default [] (skToData s !! storeKey)) committed;
             let s :=
               match changed with
               | Some changed =>
                   setStatus
                     (set_skToChanged
                        (JsObject.set (skToChanged s) storeKey changed) s)
                     storeKey (Z.lor (clear status COMMITTING) DIRTY)
               | None => setStatus s storeKey (clear status COMMITTING)
               end in
             r ← shouldRevert s isPermanent errors item.1;
             let r : Store * bool := r in
             if r.2 then revertData r.1 storeKey else Ok r.1)
        s (backwards storeKeys);
  Ok (mayHaveChanges (queueCommitChanges s)).

(** [sourceDidCommitDestroy] *)
Definition sourceDidCommitDestroy (s : Store) (storeKeys : list StoreKey)
  : Store :=
  mayHaveChanges
    (queueCommitChanges
       (foldl
          (fun s storeKey =>
             let status := getStatus s storeKey in
             if bool_decide (clear status DIRTY
                             = Z.lor (Z.lor READY NEW) COMMITTING)
             then
               let s :=
                 if has status DIRTY then
                   set_skToChanged (JsObject.del (skToChanged s) storeKey)
                     (set_skToCommitted (delete storeKey (skToCommitted s)) s)
                 else s in
               setStatus s storeKey READY_NEW_DIRTY
             else if has status DESTROYED then
               (unloadRecord (setStatus s storeKey DESTROYED) storeKey).1
             else
               emit (DidError "O.Store Error: Source commited a destroy on a record not marked destroyed") s)
          s (reverse storeKeys))).

(** [sourceDidNotDestroy] *)
Definition sourceDidNotDestroy (s : Store) (storeKeys : list StoreKey)
  (isPermanent : bool) (errors : option (list bool)) : result Store :=
  s ← foldM
        (fun s (item : nat * StoreKey) =>
           let storeKey := item.2 in
           let status := getStatus s storeKey in
           if bool_decide (clear status DIRTY
                           = Z.lor (Z.lor READY NEW) COMMITTING)
           then
             Ok (set_created (JsObject.del (created s) storeKey)
                   (setStatus s storeKey
                      (clear status (Z.lor COMMITTING NEW))))
           else if has status DESTROYED then
             let s :=
               setStatus s storeKey (Z.lor (clear status COMMITTING) DIRTY) in
             let s :=
               set_destroyed (JsObject.set (destroyed s) storeKey "") s in
             r ← shouldRevert s isPermanent errors item.1;
             let r : Store * bool := r in
             if r.2 then undestroyRecord r.1 storeKey "" None "" else Ok r.1
           else
             Ok (emit (DidError "O.Store Error: Source commited a destroy on a record not marked destroyed") s))
        s (backwards storeKeys);
  Ok (mayHaveChanges (queueCommitChanges s)).

(** [materialiseRecord]: a record instance that is made here has no
    observers yet. *)
Definition materialiseRecord (s : Store) (storeKey : StoreKey)
  : result Store :=
  match skToRecord s !! storeKey with
  | Some _ => Ok s
  | None =>
      match skToType s !! storeKey with
      | None => Throw "TypeError: undefined is not a constructor"
      | Some _ =>
          Ok (set_skToRecord
                (<[storeKey := mkRecordInstance false]> (skToRecord s)) s)
      end
  end.

(** [getRecordFromStoreKey]; [now] is the clock. *)
Definition getRecordFromStoreKey (s : Store) (storeKey : StoreKey)
  (doNotFetch : bool) (now : Z) : result Store :=
  s ← materialiseRecord s storeKey;
  s ← (if negb doNotFetch && bool_decide (getStatus s storeKey = EMPTY)
       then fetchData s storeKey else Ok s);
  Ok (set_skToLastAccess (<[storeKey := now]> (skToLastAccess s)) s).

(** [setRecordForStoreKey] *)
Definition setRecordForStoreKey (s : Store) (storeKey : StoreKey)
  (record : RecordInstance) : Store :=
  set_skToRecord (<[storeKey := record]> (skToRecord s)) s.

(** *** The operations of the store *)

Inductive Operation : Type :=
  | MaterialiseRecord (storeKey : StoreKey)
  | GetRecordFromStoreKey (storeKey : StoreKey) (doNotFetch : bool) (now : Z)
  | SetRecordForStoreKey (storeKey : StoreKey) (record : RecordInstance)
  | AddAccount (accountId replaceAccountId : AccountId)
      (capabilities : option (list string))
  | GetStoreKey (accountId : AccountId) (type : TypeId) (id : Id)
  | SetStatus (storeKey : StoreKey) (status : Z)
  | UnloadRecord (storeKey : StoreKey)
  | CreateRecord (storeKey : StoreKey) (data : option Data)
  | MoveRecord (storeKey : StoreKey) (toAccountId : AccountId)
      (copyStoreKey : StoreKey)
  | DestroyRecord (storeKey : StoreKey)
  | UndestroyRecord (storeKey : StoreKey) (type : TypeId) (data : option Data)
  | FetchData (storeKey : StoreKey)
  | FetchAll (accountId : AccountId) (type : TypeId) (force : bool)
  | SetData (storeKey : StoreKey) (data : option Data)
  | UpdateData (storeKey : StoreKey) (data : option Data)
      (changeIsDirty : bool)
  | RevertData (storeKey : StoreKey)
  | CheckForChanges
  | CommitChanges
  | CommitDone (changes : list (string * Changes))
  | FetchDone (accountId : AccountId) (type : TypeId)
  | DiscardChanges
  | SourceStateDidChange (accountId : AccountId) (type : TypeId)
      (newState : string)
  | SourceDidFetchRecords (accountId : AccountId) (type : TypeId)
      (records : list Data) (state : string) (isAll : bool) (now : Z)
  | SourceDidFetchPartialRecords (accountId : AccountId) (type : TypeId)
      (updates : list (Id * option Data))
  | SourceCouldNotFindRecords (accountId : AccountId) (type : TypeId)
      (ids : list Id)
  | SourceDidFetchUpdates (accountId : AccountId) (type : TypeId)
      (changed destroyed : list Id) (oldState newState : string)
  | SourceDidModifyRecords (accountId : AccountId) (type : TypeId)
      (ids : list Id)
  | SourceDidDestroyRecords (accountId : AccountId) (type : TypeId)
      (ids : list Id)
  | SourceCommitDidChangeState (accountId : AccountId) (type : TypeId)
      (oldState newState : string)
  | SourceDidCommitCreate (skToPartialData : list (StoreKey * Data))
  | SourceDidNotCreate (storeKeys : list StoreKey) (isPermanent : bool)
      (errors : option (list bool))
  | SourceDidCommitUpdate (storeKeys : list StoreKey)
  | SourceDidNotUpdate (storeKeys : list StoreKey) (isPermanent : bool)
      (errors : option (list bool))
  | SourceDidCommitDestroy (storeKeys : list StoreKey)
  | SourceDidNotDestroy (storeKeys : list StoreKey) (isPermanent : bool)
      (errors : option (list bool)).

(** The store after an operation. *)
Definition step (s : Store) (op : Operation) : result Store :=
  match op with
  | MaterialiseRecord storeKey => materialiseRecord s storeKey
  | GetRecordFromStoreKey storeKey doNotFetch now =>
      getRecordFromStoreKey s storeKey doNotFetch now
  | SetRecordForStoreKey storeKey record =>
      Ok (setRecordForStoreKey s storeKey record)
  | AddAccount accountId replaceAccountId capabilities =>
      Ok (addAccount s accountId replaceAccountId capabilities)
  | GetStoreKey accountId type id =>
      r ← getStoreKey s accountId type id;
      let r : Store * StoreKey := r in
      Ok r.1
  | SetStatus storeKey status => Ok (setStatus s storeKey status)
  | UnloadRecord storeKey => Ok (unloadRecord s storeKey).1
  | CreateRecord storeKey data => Ok (createRecord s storeKey data "")
  | MoveRecord storeKey toAccountId copyStoreKey =>
      r ← moveRecord s storeKey toAccountId copyStoreKey;
      let r : Store * StoreKey := r in
      Ok r.1
  | DestroyRecord storeKey => destroyRecord s storeKey ""
  | UndestroyRecord storeKey type data =>
      undestroyRecord s storeKey type data ""
  | FetchData storeKey => fetchData s storeKey
  | FetchAll accountId type force => fetchAll s accountId type force
  | SetData storeKey data => setData s storeKey data
  | UpdateData storeKey data changeIsDirty =>
      r ← updateData s storeKey data changeIsDirty;
      let r : Store * bool := r in
      Ok r.1
  | RevertData storeKey => revertData s storeKey
  | CheckForChanges => Ok (checkForChanges s)
  | CommitChanges => commitChanges s
  | CommitDone changes => commitDone s changes
  | FetchDone accountId type => fetchDone s accountId type
  | DiscardChanges => discardChanges s
  | SourceStateDidChange accountId type newState =>
      sourceStateDidChange s accountId type newState
  | SourceDidFetchRecords accountId type records state isAll now =>
      sourceDidFetchRecords s accountId type records state isAll now
  | SourceDidFetchPartialRecords accountId type updates =>
      sourceDidFetchPartialRecords s accountId type updates false
  | SourceCouldNotFindRecords accountId type ids =>
      sourceCouldNotFindRecords s accountId type ids
  | SourceDidFetchUpdates accountId type changed destroyed oldState newState =>
      sourceDidFetchUpdates s accountId type changed destroyed oldState newState
  | SourceDidModifyRecords accountId type ids =>
      sourceDidModifyRecords s accountId type ids
  | SourceDidDestroyRecords accountId type ids =>
      sourceDidDestroyRecords s accountId type ids
  | SourceCommitDidChangeState accountId type oldState newState =>
      sourceCommitDidChangeState s accountId type oldState newState
  | SourceDidCommitCreate skToPartialData =>
      sourceDidCommitCreate s skToPartialData
  | SourceDidNotCreate storeKeys isPermanent errors =>
      sourceDidNotCreate s storeKeys isPermanent errors
  | SourceDidCommitUpdate storeKeys => Ok (sourceDidCommitUpdate s storeKeys)
  | SourceDidNotUpdate storeKeys isPermanent errors =>
      sourceDidNotUpdate s storeKeys isPermanent errors
  | SourceDidCommitDestroy storeKeys => Ok (sourceDidCommitDestroy s storeKeys)
  | SourceDidNotDestroy storeKeys isPermanent errors =>
      sourceDidNotDestroy s storeKeys isPermanent errors
  end.

(** *** Queries on the tables *)

(** [getRecordStatus]; the status of a missing store key is read under the
    name ["undefined"]. *)
Definition getRecordStatus (s : Store) (accountId : AccountId)
  (type : TypeId) (id : Id) : result Z :=
  account ← getAccount s accountId;
  match typeToIdToSK account !! type with
  | Some idToSk =>
      Ok (getStatus s (default "undefined" (idToSk !! id)))
  | None => Ok EMPTY
  end.

(** [hasChangesForType] *)
Definition hasChangesForType (s : Store) (type : TypeId) : bool :=
  existsb (fun kv : StoreKey * StoreKey =>
             bool_decide (skToType s !! kv.1 = Some type)) (created s) ||
  existsb (fun kv : StoreKey * list (string * bool) =>
             bool_decide (skToType s !! kv.1 = Some type)) (skToChanged s) ||
  existsb (fun kv : StoreKey * StoreKey =>
             bool_decide (skToType s !! kv.1 = Some type)) (destroyed s).

(** *** What the specification says of the tables *)




End WithSchema.

(** ** Store: what the properties speak of *)

(** The tables that a failed self-check must leave alone. *)
Definition sameTables (s s' : Store) : Prop :=
  skToData s' = skToData s /\ skToStatus s' = skToStatus s /\
  skToChanged s' = skToChanged s /\ skToCommitted s' = skToCommitted s /\
  created s' = created s /\ destroyed s' = destroyed s /\
  skToRollback s' = skToRollback s /\ skToAccountId s' = skToAccountId s /\
  skToType s' = skToType s.



(** The counter [nextStoreKey] is ahead of the store keys that have a type:
    the keys that [generateStoreKey] will give are not in use. *)
Definition counterAhead (s : Store) : Prop :=
  forall n, (nextStoreKey s <= n)%N -> skToType s !! generateStoreKey n = None.

(** From [s] to [s'] the counter stays ahead and every store key keeps its
    type. *)
Definition keeps (s s' : Store) : Prop :=
  counterAhead s ->
  counterAhead s' /\
  forall storeKey type,
    skToType s !! storeKey = Some type -> skToType s' !! storeKey = Some type.

(** If the call returns, [R] holds of the store in the value it returns. *)
Definition returns {A} (R : Store -> Prop) (store : A -> Store)
  (r : result A) : Prop :=
  forall a, r = Ok a -> R (store a).

(** The index of an account for a type: ids to store keys. *)
Definition index (s : Store) (accountId : AccountId) (type : TypeId)
  : gmap Id StoreKey :=
  match accounts s !! accountId with
  | Some account => default ∅ (typeToIdToSK account !! type)
  | None => ∅
  end.

(** The id that the store has for a store key, as a key of a type. *)
Definition idOfKey (s : Store) (type : TypeId) (storeKey : StoreKey)
  : option Id :=
  JsObject.get (default [] (typeToSKToId s !! type)) storeKey.

(** What the tables hold for one store key. *)
Definition entry (s : Store) (storeKey : StoreKey) :=
  (skToStatus s !! storeKey, skToData s !! storeKey,
   skToRecord s !! storeKey, skToRollback s !! storeKey,
   skToLastAccess s !! storeKey, skToCommitted s !! storeKey,
   JsObject.get (skToChanged s) storeKey, skToType s !! storeKey,
   skToAccountId s !! storeKey).

(** From [s] to [s'] nothing is written for the store key: its entries are
    the same, the counter has not gone back, and no id of the account has
    come to name it. *)
Definition apart (accountId : AccountId) (storeKey : StoreKey)
  (s s' : Store) : Prop :=
  (nextStoreKey s <= nextStoreKey s')%N /\
  entry s' storeKey = entry s storeKey /\
  nestedStores s' = nestedStores s /\
  (forall type, idOfKey s' type storeKey = idOfKey s type storeKey) /\
  (forall type id,
     index s' accountId type !! id = Some storeKey ->
     index s accountId type !! id = Some storeKey).

(** The marks of changed attributes are right for the data [cur] of a
    record with the committed data [committed]: the data has the keys of the
    committed data, each key has at most one mark, a mark says whether the
    data differs from the committed data at its key, and every key at which
    they differ has a mark. *)
Definition marked (committed cur : Data) (ch : list (string * bool)) : Prop :=
  cur.*1 = committed.*1 /\ NoDup ch.*1 /\
  (forall key b,
     JsObject.get ch key = Some b ->
     b = negb (isEqual (attr cur key) (attr committed key)) /\
     key ∈ committed.*1) /\
  (forall key, attr cur key <> attr committed key ->
               is_Some (JsObject.get ch key)).

(** ** Store: the scenarios *)

Module Scenario.

(** One record type [T] with the primary key [id], the attributes [a], [b]
    and [c] that the client may set, and [seen], which is not sent to the
    source. *)
Definition recordType : TypeInfo :=
  mkTypeInfo "id"
    [mkAttribute "id" false VUndefined None;
     mkAttribute "a" false VUndefined None;
     mkAttribute "b" false VUndefined None;
     mkAttribute "c" false (VNum 0) None;
     mkAttribute "seen" true (VBool false) None].

Definition typeInfo (_ : TypeId) : TypeInfo := recordType.

(** The store of the result, or [s] when the operation threw. *)
Definition orElse (s : Store) (r : result Store) : Store :=
  match r with
  | Ok s' => s'
  | _ => s
  end.

(** A new store that commits by itself and rebases conflicts, with the
    account [p]. *)
Definition initial : Store :=
  addAccount
    (mkStore true true [] 1 ∅ ∅ ∅ ∅ ∅ [] ∅ ∅ ∅ ∅ false false [] [] ∅ ∅ [])
    "p" "" None.

(** The record [x] of the account [p] as the source sends it. *)
Definition recordX : Data :=
  [("id", VStr "x"); ("a", VNum 1); ("b", VNum 1)].

(** S2: the source has delivered the record; its store key is [k1]. *)
Definition loaded : Store :=
  orElse initial
    (sourceDidFetchRecords typeInfo initial "p" "T" [recordX] "" false 100).

(** S2: the client has set [a] to 2. *)
Definition dirty : Store :=
  orElse loaded
    (r ← updateData loaded "k1" (Some [("a", VNum 2)]) true; Ok r.1).

(** The same store with [rebaseConflicts] off. *)
Definition dirtyWithoutRebase : Store :=
  mkStore (autoCommit dirty) false (nestedStores dirty) (nextStoreKey dirty)
    (typeToSKToId dirty) (skToAccountId dirty) (skToType dirty)
    (skToStatus dirty) (skToData dirty) (skToChanged dirty)
    (skToCommitted dirty) (skToRollback dirty) (skToRecord dirty)
    (skToLastAccess dirty) (hasChanges dirty) (isCommitting dirty)
    (created dirty) (destroyed dirty) (changedTypes dirty) (accounts dirty)
    (effects dirty).

(** S2: the patch of the source. *)
Definition patch99 : Data := [("a", VNum 9); ("b", VNum 9)].

(** The client has set the key [c], which the data of the record lacks. *)
Definition patchedWithNewKey : Store :=
  orElse loaded
    (r ← updateData loaded "k1" (Some [("c", VNum 2)]) true; Ok r.1).




(** S2 with a data hash of [a] and [b] alone. *)
Definition s2 (s : Store) : Store :=
  set_skToCommitted
    (<["k1" := [("a", VNum 1); ("b", VNum 1)]]> (skToCommitted s))
    (set_skToData (<["k1" := [("a", VNum 2); ("b", VNum 1)]]> (skToData s))
       s).



(** The record [x] is loaded and a view observes its record instance. *)
Definition observed : Store :=
  setRecordForStoreKey loaded "k1" (mkRecordInstance true).

(** The source has delivered the record with the state token [t1], and the
    store asks for the records of the type again. *)
Definition synced : Store :=
  orElse initial
    (sourceDidFetchRecords typeInfo initial "p" "T" [recordX] "t1" false 100).

Definition refreshing : Store := orElse synced (fetchAll synced "p" "T" true).

(** The client has marked the record as seen; [seen] is not sent to the
    source. *)
Definition markedSeen : Store :=
  orElse loaded
    (r ← updateData loaded "k1" (Some [("seen", VBool true)]) true; Ok r.1).

End Scenario.

End Store.

(** * Properties of the windowed query *)

Module WindowedQueryFacts.
Import JsArray WindowedQuery.

(** C10. [invertUpdate] exchanges the removed arrays with the added arrays and
    sets [total] to the total plus the number of removed items minus the
    number of added items of the update it is given; applied twice it gives
    the update back. *)
Theorem invertUpdate_involution (u : Update) :
  removedIndexes (invertUpdate u) = addedIndexes u /\
  removedStoreKeys (invertUpdate u) = addedStoreKeys u /\
  addedIndexes (invertUpdate u) = removedIndexes u /\
  addedStoreKeys (invertUpdate u) = removedStoreKeys u /\
  total (invertUpdate u)
  = total u + len (removedStoreKeys u) - len (addedStoreKeys u) /\
  invertUpdate (invertUpdate u) = u.
Proof.
  repeat split.
  destruct u as [ri rs ai as_ t g up]. unfold invertUpdate. cbn.
  f_equal. lia.
Qed.

Lemma foldl_preserves {A B} (P : A -> Prop) (f : A -> B -> A) (l : list B) :
  forall a, P a -> (forall a x, P a -> P (f a x)) -> P (foldl f a l).
Proof.
  induction l as [|x l IH]; intros a Ha Hf; cbn; [done|].
  apply IH; [by apply Hf | done].
Qed.

Section Arrays.
Context {A : Type}.
Implicit Types (a : list A) (i j : Z) (x hole : A).

Lemma len_nonneg a : 0 <= len a.
Proof. unfold len. lia. Qed.


Lemma len_assign hole a i x :
  0 <= i -> len (assign hole a i x) = Z.max (len a) (i + 1).
Proof.
  intros Hi. unfold assign, len.
  rewrite (proj2 (Z.ltb_ge i 0)) by lia.
  case_decide.
  - rewrite length_insert. lia.
  - rewrite !length_app, length_replicate. cbn. lia.
Qed.


End Arrays.





Section Reconcile.
Variable toStoreKey : Id -> StoreKey.
Variable getStatus : option StoreKey -> Z.
Variable parentReset : Query -> Query.

Lemma fetchWindow_sameCore q index fetchRecords prefetchArg :
  sameCore q (fetchWindow getStatus q index fetchRecords prefetchArg).
Proof.
  unfold fetchWindow, sameCore.
  repeat (case_match; cbn); done.
Qed.

Lemma _fetchObservedWindows_sameCore q :
  sameCore q (_fetchObservedWindows getStatus q).
Proof.
  unfold _fetchObservedWindows.
  apply (foldl_preserves (sameCore q)); [done|].
  intros a r Ha.
  apply (foldl_preserves (sameCore q)); [done|].
  intros a' w (H1 & H2 & H3 & H4).
  destruct (fetchWindow_sameCore a' w true None) as (G1 & G2 & G3 & G4).
  unfold sameCore. by rewrite G1, G2, G3, G4.
Qed.

Lemma drainPackets_stale f qs l :
  forall q d, waitingPackets q = l ->
    Forall (fun p => packetQueryState p <> qs) l ->
    exists d', drainPackets f qs (length l) q d
               = Ok (set_waitingPackets [] q, d').
Proof.
  induction l as [|p l IH]; intros q d Hq Hl; cbn.
  - exists d. destruct q; cbn in *; by subst.
  - rewrite Hq. inversion Hl as [|? ? Hp Hl']; subst.
    rewrite bool_decide_false by done.
    destruct (IH (set_waitingPackets l q) true eq_refl Hl') as [d' Hd'].
    exists d'. by rewrite Hd'.
Qed.

Lemma composeFrom_lookup rest :
  forall acc j, (j <= length rest)%nat ->
    composeFrom acc rest !! j = Some (foldl composeUpdates acc (take j rest)).
Proof.
  induction rest as [|p rest IH]; intros acc j Hj; cbn in *.
  - by replace j with 0%nat by lia.
  - destruct j as [|j]; [done|]. cbn. apply IH. lia.
Qed.

Lemma composePreemptives_lookup preemptives j :
  (j < length preemptives)%nat ->
  Ok <$> composePreemptives preemptives !! j
  = Some (reduceCompose (take (S j) preemptives)).
Proof.
  destruct preemptives as [|p rest]; cbn; [lia|]. intros Hj.
  rewrite composeFrom_lookup by lia. done.
Qed.

Lemma lastMatch_None N l :
  forall i, (forall j c, l !! j = Some c -> updateIsEqual N c = false) ->
    lastMatch N l i = None.
Proof.
  induction l as [|c l IH]; intros i H; cbn; [done|].
  rewrite IH by (intros j c' Hj; apply (H (S j) c' Hj)).
  by rewrite (H 0%nat c eq_refl).
Qed.

Lemma lastMatch_last N l :
  forall i k c, l !! k = Some c -> updateIsEqual N c = true ->
    (forall j c', (k < j)%nat -> l !! j = Some c' ->
                  updateIsEqual N c' = false) ->
    lastMatch N l i = Some (i + k)%nat.
Proof.
  induction l as [|c0 l IH]; intros i k c Hk Hc Hlater; [done|].
  destruct k as [|k]; cbn in *.
  - rewrite lastMatch_None.
    + injection Hk as ->. rewrite Hc. f_equal. lia.
    + intros j c' Hj. apply (Hlater (S j) c'); [lia | done].
  - rewrite (IH (S i) k c Hk Hc).
    + f_equal. lia.
    + intros j c' Hlt Hj. apply (Hlater (S j) c'); [lia | done].
Qed.

Lemma _applyWaitingPackets_stale fuel q :
  Forall (fun p => packetQueryState p <> queryState q) (waitingPackets q) ->
  exists q', _applyWaitingPackets toStoreKey getStatus parentReset fuel q
             = Ok q' /\
    storeKeys q' = storeKeys q /\
    preemptiveUpdates q' = preemptiveUpdates q /\
    queryState q' = queryState q /\
    waitingPackets q' = [].
Proof.
  intros Hstale. unfold _applyWaitingPackets, _applyWaitingPackets_over.
  destruct (drainPackets_stale
              (sourceDidFetchIds toStoreKey getStatus parentReset fuel)
              (queryState q) (waitingPackets q) q false eq_refl Hstale)
    as [d' Hd'].
  rewrite Hd'. cbn [mbind result_bind fst snd].
  destruct d'; (eexists; split; [reflexivity|]).
  - destruct (_fetchObservedWindows_sameCore (set_waitingPackets [] q))
      as (G1 & G2 & G3 & G4).
    by rewrite G1, G2, G3, G4.
  - done.
Qed.

(** C1, as amended. The delta goes from the current state token to another
    one; its normalised form [N] is not empty and is equal to the composition
    [c] of the first [k + 1] preemptive updates, and to the composition of no
    longer prefix; every removed id was located; the query is DIRTY or the
    prefix is the whole stack; no waiting packet was taken in the new state.
    Then [sourceDidFetchUpdate] returns, the prefix has left the stack, the
    list is as the preemptive updates left it and the state token is the new
    one. *)
Theorem confirmed_prefix_is_dropped fuel q update N k c :
  newQueryState update <> queryState q ->
  oldQueryState update = queryState q ->
  normalisedDelta toStoreKey q update = Ok N ->
  (k < length (preemptiveUpdates q))%nat ->
  reduceCompose (take (S k) (preemptiveUpdates q)) = Ok c ->
  updateIsEqual N c = true ->
  (forall j c', (k < j < length (preemptiveUpdates q))%nat ->
     reduceCompose (take (S j) (preemptiveUpdates q)) = Ok c' ->
     updateIsEqual N c' = false) ->
  removedStoreKeys N <> [] \/ addedStoreKeys N <> [] ->
  truncateAtFirstGap N = false ->
  Status.has (status q) Status.DIRTY = true \/
    S k = length (preemptiveUpdates q) ->
  Forall (fun p => packetQueryState p <> newQueryState update)
    (waitingPackets q) ->
  exists q',
    sourceDidFetchUpdate toStoreKey getStatus parentReset fuel q update
    = Ok q' /\
    preemptiveUpdates q' = drop (S k) (preemptiveUpdates q) /\
    storeKeys q' = storeKeys q /\
    queryState q' = newQueryState update.
Proof.
  intros Hnew Hold HN Hk Hc Heq Hlater Hsome Hgap Hdirty Hwait.
  unfold sourceDidFetchUpdate.
  rewrite bool_decide_false by congruence.
  rewrite bool_decide_true by congruence. cbn.
  unfold normalisedDelta in HN.
  destruct (preemptiveUpdates q) as [|p rest] eqn:Hps; [done|].
  unfold reconcile. cbn [preemptiveUpdates set_queryState set_status storeKeys].
  rewrite Hps.
  destruct (reduceCompose (p :: rest)) as [allPreemptives| |] eqn:Hall;
    [|done|done].
  cbn in HN. injection HN as HN. cbn [mbind result_bind].
  rewrite HN.
  assert (Hmatch : lastMatch N (composePreemptives (p :: rest)) 0 = Some k).
  { pose proof (composePreemptives_lookup (p :: rest) k Hk) as Hl.
    rewrite Hc in Hl.
    destruct (composePreemptives (p :: rest) !! k) as [c0|] eqn:Hc0; [|done].
    injection Hl as ->.
    apply (lastMatch_last N _ 0%nat k c Hc0 Heq).
    intros j c' Hj Hc'.
    assert (j < length (p :: rest))%nat as Hjlen.
    { apply lookup_lt_Some in Hc'.
      revert Hc'. cbn. clear. intros H.
      assert (Hlen : forall r a, length (composeFrom a r) = S (length r)).
      { induction r; intros; cbn; [done|]. by rewrite IHr. }
      rewrite Hlen in H. cbn. lia. }
    apply (Hlater j c'); [lia|].
    pose proof (composePreemptives_lookup (p :: rest) j Hjlen) as Hl'.
    rewrite Hc' in Hl'. cbn [fmap option_fmap option_map] in Hl'.
    congruence. }
  replace (bool_decide (removedStoreKeys N = []) &&
           bool_decide (addedStoreKeys N = [])) with false.
  2:{ symmetry. apply andb_false_iff.
      destruct Hsome; [left|right]; by apply bool_decide_eq_false. }
  rewrite Hmatch. cbn [fmap option_fmap option_map].
  rewrite Hgap. cbn [mbind result_bind preemptiveUpdates set_preemptiveUpdates].
  replace (negb (Status.has (status q) Status.DIRTY) &&
           negb (bool_decide (drop (S k) (p :: rest) = []))) with false.
  2:{ symmetry. apply andb_false_iff. destruct Hdirty as [Hd|Hd].
      - left. by rewrite Hd.
      - right. rewrite bool_decide_true; [done|].
        apply drop_ge. lia. }
  match goal with
  | |- context [_applyWaitingPackets _ _ _ _ ?q0] =>
      destruct (_applyWaitingPackets_stale fuel q0)
        as (q' & Hq' & G1 & G2 & G3 & G4); [exact Hwait|]
  end.
  exists q'. by rewrite Hq', G1, G2, G3.
Qed.






End Reconcile.

(** *** The scenarios *)

Import Scenario.

(** S4, the first step: the client removes [sk2]. *)
Example s4_client_update :
  run_clientDidGenerateUpdate 1 s4_initial s4_remove_sk2 = Ok s4_preempted.
Proof. vm_compute. reflexivity. Qed.

(** S4, the second step, from the theorem: the delta that removes [id2]
    confirms the preemptive update. *)
Lemma s4_matching_preemptive :
  exists q',
    run_sourceDidFetchUpdate 2 s4_preempted s4_delta = Ok q' /\
    preemptiveUpdates q' = [] /\
    storeKeys q' = [Some "sk1"; Some "sk3"] /\
    queryState q' = "s1".
Proof.
  apply (confirmed_prefix_is_dropped toStoreKey getStatus parentReset 2
           s4_preempted s4_delta
           (mkUpdate [1] ["sk2"] [] [] false 2 None) 0
           (mkUpdate [1] ["sk2"] [] [] false 2 None)).
  - discriminate.
  - reflexivity.
  - vm_compute. reflexivity.
  - cbn. lia.
  - reflexivity.
  - vm_compute. reflexivity.
  - cbn. intros j c' Hj. lia.
  - left. discriminate.
  - reflexivity.
  - left. vm_compute. reflexivity.
  - constructor.
Defined.

(** The state [two_preemptives] is the one that two removals leave, but for
    the status that the refresh has changed. *)
Example two_preemptives_arise :
  exists q,
    (q1 ← run_clientDidGenerateUpdate 1 four_records s4_remove_sk2;
     run_clientDidGenerateUpdate 1 q1 (mkRawUpdate ["sk4"] [] None None))
    = Ok q /\
    storeKeys q = storeKeys two_preemptives /\
    preemptiveUpdates q = preemptiveUpdates two_preemptives /\
    queryState q = queryState two_preemptives /\
    queryLength q = queryLength two_preemptives.
Proof. eexists. split; [vm_compute; reflexivity|]. repeat split. Qed.

(** C1, as it is stated, fails: two preemptive removals are pending and the
    query is no longer DIRTY; the delta confirms the first one only. The
    second removal is undone: [sk4] is back in the list and the stack is
    empty. *)
Lemma unconfirmed_preemptives_are_undone :
  ~ confirmedPrefixIsDropped toStoreKey getStatus parentReset 2
      two_preemptives first_only_delta.
Proof.
  intros H.
  destruct (H (mkUpdate [1] ["sk2"] [] [] false 3 None) 0%nat
              (mkUpdate [1] ["sk2"] [] [] false 3 None))
    as (q' & Hrun & Hpre & Hlist & _).
  - discriminate.
  - reflexivity.
  - vm_compute. reflexivity.
  - cbn. lia.
  - reflexivity.
  - vm_compute. reflexivity.
  - vm_compute in Hrun. injection Hrun as <-. vm_compute in Hlist.
    discriminate.
Qed.

(** What the code does there. *)
Example unconfirmed_preemptives_result :
  exists q',
    run_sourceDidFetchUpdate 2 two_preemptives first_only_delta = Ok q' /\
    storeKeys q' = [Some "sk1"; Some "sk3"; Some "sk4"] /\
    preemptiveUpdates q' = [] /\
    queryState q' = "s1".
Proof. eexists. split; [vm_compute; reflexivity|]. repeat split. Qed.

(** A waiting packet of the new state is replayed after the confirmation and
    writes its ids into the list. *)
Example replayed_packet_rewrites_the_list :
  exists q',
    run_sourceDidFetchUpdate 2
      (set_waitingPackets [mkPacket "s1" 1 ["id5"] 2] s4_preempted) s4_delta
    = Ok q' /\
    storeKeys q' = [Some "sk1"; Some "sk5"] /\
    preemptiveUpdates q' = [].
Proof. eexists. split; [vm_compute; reflexivity|]. repeat split. Qed.


End WindowedQueryFacts.

(** * Properties of the store *)

Module StoreFacts.
Import Status Store.

Ltac fields :=
  cbn [autoCommit rebaseConflicts nestedStores nextStoreKey typeToSKToId
       skToAccountId skToType skToStatus skToData skToChanged skToCommitted
       skToRollback skToRecord skToLastAccess hasChanges isCommitting created
       destroyed changedTypes accounts effects
       set_nextStoreKey set_typeToSKToId set_skToAccountId set_skToType
       set_skToStatus set_skToData set_skToChanged set_skToCommitted
       set_skToRollback set_skToRecord set_skToLastAccess set_hasChanges
       set_isCommitting set_created set_destroyed set_changedTypes
       set_accounts emit _recordDidChange mayHaveChanges willUnloadRecord
       setAccount].

Ltac simp :=
  cbn [from_option Datatypes.id mbind result_bind fst snd negb andb orb foldM].

(** *** Loops that can throw *)

Lemma bind_Ok {A B} (m : result A) (k : A -> result B) b :
  m ≫= k = Ok b -> exists a, m = Ok a /\ k a = Ok b.
Proof. destruct m as [a| |]; cbn; [eauto | done | done]. Qed.



(** *** Objects *)

Section Obj.
Context {V : Type}.
Implicit Types (o : list (string * V)) (k : string) (v : V).

Lemma get_set_eq o k v : JsObject.get (JsObject.set o k v) k = Some v.
Proof.
  induction o as [|kv o IH]; cbn; [by rewrite decide_True|].
  destruct (decide (kv.1 = k)) as [E|E]; cbn;
    [by rewrite decide_True | by rewrite decide_False].
Qed.

Lemma get_set_ne o k k' v :
  k <> k' -> JsObject.get (JsObject.set o k v) k' = JsObject.get o k'.
Proof.
  intros Hne. induction o as [|kv o IH]; cbn; [by rewrite decide_False|].
  destruct (decide (kv.1 = k)) as [E|E]; cbn.
  - rewrite decide_False by done. rewrite decide_False by congruence. done.
  - destruct (decide (kv.1 = k')); done.
Qed.

Lemma get_del_eq o k : JsObject.get (JsObject.del o k) k = None.
Proof.
  unfold JsObject.del. induction o as [|kv o IH]; [done|].
  rewrite filter_cons. destruct (decide (kv.1 <> k)) as [E|E]; [|done].
  cbn. by rewrite decide_False.
Qed.

Lemma get_del_ne o k k' :
  k <> k' -> JsObject.get (JsObject.del o k) k' = JsObject.get o k'.
Proof.
  intros Hne. unfold JsObject.del. induction o as [|kv o IH]; [done|].
  rewrite filter_cons. destruct (decide (kv.1 <> k)) as [E|E]; cbn.
  - by rewrite IH.
  - apply dec_stable in E. rewrite decide_False by congruence. done.
Qed.

End Obj.

(** *** The status of a record *)






Lemma getStatus_of s sk st :
  skToStatus s !! sk = Some st -> st <> 0 -> getStatus s sk = st.
Proof.
  intros H Hst. unfold getStatus, rawStatus. rewrite H. cbn.
  destruct (st =? 0) eqn:E; [lia|done].
Qed.

(** *** Self-checks and eviction *)

Lemma emit_sameTables e s : sameTables s (emit e s).
Proof. repeat split. Qed.

(** C9. [createRecord] on a store key whose status is neither EMPTY nor
    DESTROYED, and [updateData] for a dirty change of a record that is not
    READY or has no data, report through [didError] and change no table;
    [updateData] returns false. *)
Theorem programming_errors_are_reported_and_change_nothing
    s storeKey data isCopyOfStoreKey :
  (getStatus s storeKey <> EMPTY -> getStatus s storeKey <> DESTROYED ->
   createRecord s storeKey data isCopyOfStoreKey
   = emit (DidError "O.Store Error: Cannot create existing record") s /\
   sameTables s (createRecord s storeKey data isCopyOfStoreKey)) /\
  (has (getStatus s storeKey) READY = false \/ skToData s !! storeKey = None ->
   exists s',
     updateData s storeKey data true = Ok (s', false) /\
     s' = emit (DidError "O.Store Error: Cannot write to unready record") s /\
     sameTables s s').
Proof.
  split.
  - intros H1 H2. unfold createRecord.
    rewrite !bool_decide_false by done. cbn [negb andb].
    split; [done | apply emit_sameTables].
  - intros H. eexists. split; [|split; [reflexivity | apply emit_sameTables]].
    unfold updateData. destruct (skToData s !! storeKey) as [current|]; [|done].
    destruct H as [H|H]; [|done]. rewrite H. done.
Qed.

(** C7. When [unloadRecord] returns true the status had none of COMMITTING,
    NEW and DIRTY, the record instance, if any, had no observers, and the
    entries of the store key in the record, data, status, rollback and
    last-access tables are gone. When the status has one of the three bits or
    the record instance has observers it returns false and the store is the
    same. When no nested store objects either it returns true. The maps
    between ids and store keys, the types and the accounts of the store keys
    are never touched. *)
Theorem unloadRecord_is_safe s storeKey :
  ((unloadRecord s storeKey).2 = true ->
   has (getStatus s storeKey) (Z.lor (Z.lor COMMITTING NEW) DIRTY) = false /\
   (forall record,
      skToRecord s !! storeKey = Some record -> hasObservers record = false) /\
   skToRecord (unloadRecord s storeKey).1 !! storeKey = None /\
   skToData (unloadRecord s storeKey).1 !! storeKey = None /\
   skToStatus (unloadRecord s storeKey).1 !! storeKey = None /\
   skToRollback (unloadRecord s storeKey).1 !! storeKey = None /\
   skToLastAccess (unloadRecord s storeKey).1 !! storeKey = None) /\
  (has (getStatus s storeKey) (Z.lor (Z.lor COMMITTING NEW) DIRTY) = true \/
   (exists record,
      skToRecord s !! storeKey = Some record /\ hasObservers record = true) ->
   unloadRecord s storeKey = (s, false)) /\
  (has (getStatus s storeKey) (Z.lor (Z.lor COMMITTING NEW) DIRTY) = false ->
   (forall record,
      skToRecord s !! storeKey = Some record -> hasObservers record = false) ->
   Forall (fun store => nestedMayUnloadRecord store storeKey = true)
     (nestedStores s) ->
   (unloadRecord s storeKey).2 = true) /\
  typeToSKToId (unloadRecord s storeKey).1 = typeToSKToId s /\
  accounts (unloadRecord s storeKey).1 = accounts s /\
  skToType (unloadRecord s storeKey).1 = skToType s /\
  skToAccountId (unloadRecord s storeKey).1 = skToAccountId s.
Proof.
  unfold unloadRecord, mayUnloadRecord.
  destruct (has (getStatus s storeKey) _) eqn:Hst; cbn [orb negb fst snd].
  { repeat split; try done. }
  assert (Hall : forall l : list NestedStore,
            Forall (fun store => nestedMayUnloadRecord store storeKey = true) l ->
            forallb (fun store => nestedMayUnloadRecord store storeKey) l = true).
  { induction 1; cbn; [done|]. by apply andb_true_iff. }
  destruct (skToRecord s !! storeKey) as [record|] eqn:Hrec;
    [destruct (hasObservers record) eqn:Hobs|];
    cbn [negb fst snd];
    try (destruct (forallb _ (nestedStores s)) eqn:Hn; cbn [negb fst snd]);
    repeat split; try done; cbn;
    try apply lookup_delete_eq;
    try congruence;
    try (intros [?|(r & ? & ?)]; congruence);
    try (intros _ H; specialize (H _ eq_refl); congruence);
    try (intros _ _ H; apply Hall in H; congruence).
Qed.

(** *** The type of a store key *)


Lemma keeps_trans s1 s2 s3 : keeps s1 s2 -> keeps s2 s3 -> keeps s1 s3.
Proof.
  intros H12 H23 H1. destruct (H12 H1) as [H2 K12].
  destruct (H23 H2) as [H3 K23]. split; [done|]. intros. eauto.
Qed.

Lemma generateStoreKey_inj n m : generateStoreKey n = generateStoreKey m -> n = m.
Proof.
  unfold generateStoreKey. cbn. intros [= H]. by apply (inj pretty).
Qed.

Section Returns.
Context {A B : Type}.
Implicit Types (R Q : Store -> Prop).

Lemma returns_Ok R (store : A -> Store) a : R (store a) -> returns R store (Ok a).
Proof. intros H a' [= <-]. done. Qed.

Lemma returns_Throw R (store : A -> Store) msg : returns R store (Throw msg).
Proof. intros a' [=]. Qed.

Lemma returns_bind Q R (st1 : A -> Store) (st2 : B -> Store) m k :
  returns Q st1 m ->
  (forall a, Q (st1 a) -> returns R st2 (k a)) ->
  returns R st2 (m ≫= k).
Proof.
  intros Hm Hk b Hb. apply bind_Ok in Hb as (a & Ha & Hb).
  by eapply Hk; [apply Hm|].
Qed.

Lemma returns_bind_any R (st2 : B -> Store) (m : result A) k :
  (forall a, returns R st2 (k a)) -> returns R st2 (m ≫= k).
Proof.
  intros Hk b Hb. apply bind_Ok in Hb as (a & Ha & Hb). by eapply Hk.
Qed.

End Returns.

Lemma returns_foldM {A B} (R : Store -> Prop) (store : A -> Store)
    (f : A -> B -> result A) l :
  forall a,
    R (store a) ->
    (forall a x, R (store a) -> returns R store (f a x)) ->
    returns R store (foldM f a l).
Proof.
  induction l as [|x l IH]; intros a Ha Hf; cbn.
  - by apply returns_Ok.
  - eapply returns_bind; [by apply Hf|]. intros a' Ha'. by apply IH.
Qed.

Lemma keeps_proj s0 s s' :
  nextStoreKey s' = nextStoreKey s -> skToType s' = skToType s ->
  keeps s0 s -> keeps s0 s'.
Proof.
  intros E1 E2 H H0. destruct (H H0) as [H1 H2]. unfold counterAhead.
  rewrite E1, E2. done.
Qed.

Lemma keeps_foldl {B} s0 (f : Store -> B -> Store) l :
  forall a,
    keeps s0 a -> (forall a x, keeps s0 a -> keeps s0 (f a x)) ->
    keeps s0 (foldl f a l).
Proof.
  induction l as [|x l IH]; intros a Ha Hf; cbn; [done|].
  apply IH; [by apply Hf | done].
Qed.

(** The setters of the other tables are taken off the store. *)
Ltac strip :=
  match goal with
  | |- keeps _ ?t =>
      eapply keeps_proj; [fields; reflexivity | fields; reflexivity |];
      match goal with
      | |- keeps _ ?t' => tryif constr_eq t t' then fail else idtac
      end
  end.

Create HintDb keys discriminated.

#[local] Hint Extern 2 (keeps _ _) => strip : keys.
#[local] Hint Extern 2 (keeps _ (foldl _ _ _)) =>
  apply keeps_foldl; [|intros ? ? ?] : keys.
#[local] Hint Extern 3 (keeps _ ?t) =>
  match t with
  | context [if ?b then _ else _] => destruct b eqn:?; cbn [fst snd]
  | context [match ?x with _ => _ end] => destruct x eqn:?; cbn [fst snd]
  end : keys.

(** Where the store is in the value that a function returns. *)
Ltac store_of A :=
  lazymatch A with
  | Store => constr:(@id Store)
  | (Store * ?B * ?C)%type => constr:(fun a : Store * B * C => a.1.1)
  | (Store * ?B)%type => constr:(@fst Store B)
  | (?B * Store)%type => constr:(@snd B Store)
  end.

Ltac keys_step :=
  match goal with
  | |- returns _ _ (Ok _) => apply returns_Ok; cbn [fst snd]; unfold id
  | H : keeps _ (id _) |- _ => unfold id in H
  | |- returns _ _ (Throw _) => apply returns_Throw
  | |- returns ?R _ (?m ≫= _) =>
      let T := type of m in
      lazymatch T with
      | result ?A =>
          first [ let st := store_of A in
                  eapply (returns_bind R R st);
                  [solve [repeat keys_step] | intros ? ?]
                | apply returns_bind_any; intros ? ]
      end
  | |- returns _ _ (foldM _ _ _) =>
      apply returns_foldM; [ | intros ? ? ?]
  | |- returns _ _ (if ?b then _ else _) => destruct b eqn:?
  | |- returns _ _ (match ?x with _ => _ end) => destruct x eqn:?
  | |- returns _ _ _ => solve [eauto 20 with keys]
  | |- keeps _ (foldl _ _ _) => apply keeps_foldl; [ | intros ? ? ?]
  | |- keeps _ (if ?b then _ else _) => destruct b eqn:?
  | |- keeps _ (match ?x with _ => _ end) => destruct x eqn:?
  | |- keeps _ _ => solve [eauto 20 with keys]
  | |- keeps _ _ => strip
  | |- keeps _ ?t =>
      match t with
      | context [if ?b then _ else _] => destruct b eqn:?; cbn [fst snd]
      | context [match ?x with _ => _ end] => destruct x eqn:?; cbn [fst snd]
      end
  end.

Ltac keys := intros; cbv beta zeta; repeat keys_step.

Lemma setStatus_keeps s0 s k st : keeps s0 s -> keeps s0 (setStatus s k st).
Proof. unfold setStatus. keys. Qed.
#[local] Hint Resolve setStatus_keeps : keys.

Lemma queueCommitChanges_keeps s0 s : keeps s0 s -> keeps s0 (queueCommitChanges s).
Proof. unfold queueCommitChanges. keys. Qed.
#[local] Hint Resolve queueCommitChanges_keeps : keys.

Lemma getStoreKey_keeps s0 s accountId type id :
  keeps s0 s -> returns (keeps s0) fst (getStoreKey s accountId type id).
Proof.
  intros H. unfold getStoreKey.
  destruct (bool_decide (accountId = "")); [apply returns_Throw|].
  destruct (accounts s !! accountId) as [account|]; [|apply returns_Throw].
  cbv zeta.
  match goal with |- context [match ?x with Some _ => _ | None => _ end] =>
    destruct x as [storeKey|] end; apply returns_Ok; cbn [fst]; [done|].
  eapply keeps_trans; [exact H|]. clear H.
  intros Hs. unfold counterAhead. fields. split.
  - intros n Hn. rewrite lookup_insert_ne.
    + apply Hs. lia.
    + intros E%generateStoreKey_inj. lia.
  - intros storeKey T Hsk. rewrite lookup_insert_ne; [done|].
    intros <-. rewrite Hs in Hsk by lia. done.
Qed.
#[local] Hint Resolve getStoreKey_keeps : keys.

Lemma addAccount_keeps s0 s accountId replaceAccountId capabilities :
  keeps s0 s -> keeps s0 (addAccount s accountId replaceAccountId capabilities).
Proof. unfold addAccount. keys. Qed.
#[local] Hint Resolve addAccount_keeps : keys.

Lemma unloadRecord_keeps s0 s k : keeps s0 s -> keeps s0 (unloadRecord s k).1.
Proof. unfold unloadRecord. intros. destruct (negb _); cbn [fst]; keys. Qed.
#[local] Hint Resolve unloadRecord_keeps : keys.

Lemma updateData_keeps s0 s k data changeIsDirty :
  keeps s0 s -> returns (keeps s0) fst (updateData s k data changeIsDirty).
Proof.
  unfold updateData. keys.
Qed.
#[local] Hint Resolve updateData_keeps : keys.

Lemma setData_keeps s0 s k data :
  keeps s0 s -> returns (keeps s0) id (setData s k data).
Proof. unfold setData. keys. Qed.
#[local] Hint Resolve setData_keeps : keys.

Lemma createRecord_keeps s0 s k data copy :
  keeps s0 s -> keeps s0 (createRecord s k data copy).
Proof. unfold createRecord. keys. Qed.
#[local] Hint Resolve createRecord_keeps : keys.

Lemma destroyRecord_keeps s0 s k copy :
  keeps s0 s -> returns (keeps s0) id (destroyRecord s k copy).
Proof. unfold destroyRecord. keys. Qed.
#[local] Hint Resolve destroyRecord_keeps : keys.

(** *** The account of a store key *)










Section WithSchema.
Variable typeInfo : TypeId -> TypeInfo.

(** *** Partial records from the source *)

(** C2. S2 in any store: the record is READY and DIRTY, its data is
    [{a: 2, b: 1}], its committed data [{a: 1, b: 1}] and [a] is marked as
    changed; the source delivers [{a: 9, b: 9}] for its id. With
    [rebaseConflicts] the data becomes [{a: 2, b: 9}], the committed data
    [{a: 9, b: 9}], [a] stays marked and the status stays READY and DIRTY.
    Without it the data becomes [{a: 9, b: 9}], the record is READY and no
    longer DIRTY, and it has no committed data and no changed keys left. *)
Theorem partial_update_of_a_dirty_record
    s accountId type id storeKey account idToSk :
  accountId <> "" ->
  accounts s !! accountId = Some account ->
  typeToIdToSK account !! type = Some idToSk ->
  idToSk !! id = Some storeKey ->
  getForeignRefAttrs (typeInfo type) = [] ->
  primaryKey (typeInfo type) <> "a" ->
  primaryKey (typeInfo type) <> "b" ->
  skToStatus s !! storeKey = Some (Z.lor READY DIRTY) ->
  skToData s !! storeKey = Some [("a", VNum 2); ("b", VNum 1)] ->
  skToCommitted s !! storeKey = Some [("a", VNum 1); ("b", VNum 1)] ->
  JsObject.get (skToChanged s) storeKey = Some [("a", true)] ->
  exists s',
    sourceDidFetchPartialRecords typeInfo s accountId type
      [(id, Some [("a", VNum 9); ("b", VNum 9)])] false = Ok s' /\
    if rebaseConflicts s then
      skToData s' !! storeKey = Some [("a", VNum 2); ("b", VNum 9)] /\
      skToCommitted s' !! storeKey = Some [("a", VNum 9); ("b", VNum 9)] /\
      JsObject.get (skToChanged s') storeKey = Some [("a", true)] /\
      getStatus s' storeKey = Z.lor READY DIRTY
    else
      skToData s' !! storeKey = Some [("a", VNum 9); ("b", VNum 9)] /\
      has (getStatus s' storeKey) DIRTY = false /\
      getStatus s' storeKey = READY /\
      skToCommitted s' !! storeKey = None /\
      JsObject.get (skToChanged s') storeKey = None.
Proof.
  intros Hacc Hget HidToSk Hid Hrefs Hpa Hpb Hst Hdata Hcom Hch.
  unfold sourceDidFetchPartialRecords, getAccount.
  rewrite bool_decide_false by done. rewrite Hget. simp.
  unfold fetchedPartialRecord, getAccount.
  rewrite bool_decide_false by done. rewrite Hget. simp.
  rewrite HidToSk. simp. rewrite Hid. simp.
  unfold rawStatus.  rewrite Hst. simp.
  replace (has (Z.lor READY DIRTY) READY) with true by reflexivity.
  replace (has (Z.lor READY DIRTY) COMMITTING) with false by reflexivity.
  replace (has (Z.lor READY DIRTY) DIRTY) with true by reflexivity.
  simp. rewrite Hrefs. unfold convertForeignKeysToSK. simp.
  assert (Hnew : attr [("a", VNum 9); ("b", VNum 9)] (primaryKey (typeInfo type))
                 = VUndefined).
  { unfold attr. cbn. rewrite !decide_False by done. done. }
  rewrite Hnew. cbn [truthy andb]. rewrite Hcom.
  cbn [rebaseConflicts set_skToCommitted skToData skToChanged].
  rewrite Hdata, Hch.
  replace (JsObject.assign [("a", VNum 1); ("b", VNum 1)]
             [("a", VNum 9); ("b", VNum 9)])
    with [("a", VNum 9); ("b", VNum 9)] by reflexivity.
  replace (foldl _ _ _)
    with ([("a", VNum 2); ("b", VNum 9)], [("a", true)], false)
    by reflexivity.
  destruct (rebaseConflicts s).
  - unfold setData, updateData, getStatus, rawStatus. 
    cbn [skToStatus skToData set_skToChanged set_skToCommitted].
    rewrite Hst. simp.
    replace (Z.lor READY DIRTY =? 0) with false by reflexivity.
    replace (has (Z.lor READY DIRTY) READY) with true by reflexivity.
    rewrite Hdata. simp.
    replace (writeClean _ _) with ([("a", VNum 2); ("b", VNum 9)], ["b"])
      by reflexivity.
    replace (bool_decide (Z.lor READY DIRTY = READY_NEW_DIRTY)) with false
      by reflexivity.
    simp.
    eexists. split; [reflexivity|].
    unfold setStatus, getStatus, rawStatus.
    fields.
    rewrite Hst. simp.
    replace (Z.lor READY DIRTY =? 0) with false by reflexivity.
    rewrite bool_decide_true by done.
    fields.
    rewrite !lookup_insert_eq, get_set_eq, Hst. done.
  - unfold updateData, getStatus, rawStatus.
    cbn [skToStatus skToData set_skToChanged set_skToCommitted].
    rewrite Hst, Hdata. simp.
    replace (writeClean _ _) with ([("a", VNum 9); ("b", VNum 9)], ["a"; "b"])
      by reflexivity.
    replace (Z.lor READY DIRTY =? 0) with false by reflexivity.
    replace (bool_decide (Z.lor READY DIRTY = READY_NEW_DIRTY)) with false
      by reflexivity.
    simp.
    eexists. split; [reflexivity|].
    unfold setStatus, getStatus, rawStatus.
    fields.
    rewrite Hst. simp.
    replace (Z.lor READY DIRTY =? 0) with false by reflexivity.
    rewrite bool_decide_false by done.
    replace (has (Z.lxor (Z.lor READY DIRTY) READY) READY) with false
      by reflexivity.
    fields.
    rewrite !lookup_insert_eq, lookup_delete_eq, get_del_eq. done.
Qed.

(** *** The commit *)







(** *** The operations and the store keys *)

Lemma undestroyRecord_keeps s0 s k type data copy :
  keeps s0 s -> returns (keeps s0) id (undestroyRecord typeInfo s k type data copy).
Proof. unfold undestroyRecord. keys. Qed.
#[local] Hint Resolve undestroyRecord_keeps : keys.

Lemma fetchData_keeps s0 s k :
  keeps s0 s -> returns (keeps s0) id (fetchData s k).
Proof. unfold fetchData. keys. Qed.
#[local] Hint Resolve fetchData_keeps : keys.

Lemma revertData_keeps s0 s k :
  keeps s0 s -> returns (keeps s0) id (revertData typeInfo s k).
Proof. unfold revertData. keys. Qed.
#[local] Hint Resolve revertData_keeps : keys.

Lemma _changeRecordStoreKey_keeps s0 s k k' :
  keeps s0 s -> keeps s0 (_changeRecordStoreKey s k k').
Proof. unfold _changeRecordStoreKey. keys. Qed.
#[local] Hint Resolve _changeRecordStoreKey_keeps : keys.

Lemma moveRecord_keeps s0 s k toAccountId copy :
  keeps s0 s -> returns (keeps s0) fst (moveRecord typeInfo s k toAccountId copy).
Proof. unfold moveRecord. keys. Qed.
#[local] Hint Resolve moveRecord_keeps : keys.

Lemma discardChanges_keeps s0 s  :
  keeps s0 s ->
  returns (keeps s0) id (discardChanges typeInfo s).
Proof. unfold discardChanges. keys. Qed.
#[local] Hint Resolve discardChanges_keeps : keys.

Lemma convertForeignKeysToSK_keeps s0 s refs data accountId :
  keeps s0 s ->
  returns (keeps s0) fst (convertForeignKeysToSK s refs data accountId).
Proof. unfold convertForeignKeysToSK. keys. Qed.
#[local] Hint Resolve convertForeignKeysToSK_keeps : keys.

Lemma getEntry_keeps s0 (acc : list (string * Changes) * Store) type accountId :
  keeps s0 acc.2 ->
  returns (keeps s0) snd (getEntry acc type accountId).
Proof. unfold getEntry. keys. Qed.
#[local] Hint Resolve getEntry_keeps : keys.

Lemma commitCreated_keeps s0 (acc : list (string * Changes) * Store) kv :
  keeps s0 acc.2 ->
  returns (keeps s0) snd (commitCreated typeInfo acc kv).
Proof. unfold commitCreated. keys. Qed.
#[local] Hint Resolve commitCreated_keeps : keys.

Lemma commitUpdated_keeps s0 (acc : list (string * Changes) * Store) kv :
  keeps s0 acc.2 ->
  returns (keeps s0) snd (commitUpdated typeInfo acc kv).
Proof. unfold commitUpdated. keys. Qed.
#[local] Hint Resolve commitUpdated_keeps : keys.

Lemma commitDestroyed_keeps s0 (acc : list (string * Changes) * Store) kv :
  keeps s0 acc.2 ->
  returns (keeps s0) snd (commitDestroyed acc kv).
Proof. unfold commitDestroyed. keys. Qed.
#[local] Hint Resolve commitDestroyed_keeps : keys.

Lemma commitChanges_keeps s0 s  :
  keeps s0 s ->
  returns (keeps s0) id (commitChanges typeInfo s).
Proof. unfold commitChanges. keys. Qed.
#[local] Hint Resolve commitChanges_keeps : keys.

Lemma fetchAll_keeps s0 s accountId type force :
  keeps s0 s ->
  returns (keeps s0) id (fetchAll s accountId type force).
Proof. unfold fetchAll. keys. Qed.
#[local] Hint Resolve fetchAll_keeps : keys.

Lemma sourceStateDidChange_keeps s0 s accountId type newState :
  keeps s0 s ->
  returns (keeps s0) id (sourceStateDidChange s accountId type newState).
Proof. unfold sourceStateDidChange. keys. Qed.
#[local] Hint Resolve sourceStateDidChange_keeps : keys.

Lemma checkServerState_keeps s0 s accountId type :
  keeps s0 s ->
  returns (keeps s0) id (checkServerState s accountId type).
Proof. unfold checkServerState. keys. Qed.
#[local] Hint Resolve checkServerState_keeps : keys.

Lemma fetchDone_keeps s0 s accountId type :
  keeps s0 s ->
  returns (keeps s0) id (fetchDone s accountId type).
Proof. unfold fetchDone. keys. Qed.
#[local] Hint Resolve fetchDone_keeps : keys.

Lemma commitDone_keeps s0 s changes :
  keeps s0 s ->
  returns (keeps s0) id (commitDone s changes).
Proof. unfold commitDone. keys. Qed.
#[local] Hint Resolve commitDone_keeps : keys.

Lemma sourceDidDestroyRecords_keeps s0 s accountId type ids :
  keeps s0 s ->
  returns (keeps s0) id (sourceDidDestroyRecords s accountId type ids).
Proof. unfold sourceDidDestroyRecords. keys. Qed.
#[local] Hint Resolve sourceDidDestroyRecords_keeps : keys.

Lemma sourceDidModifyRecords_keeps s0 s accountId type ids :
  keeps s0 s ->
  returns (keeps s0) id (sourceDidModifyRecords s accountId type ids).
Proof. unfold sourceDidModifyRecords. keys. Qed.
#[local] Hint Resolve sourceDidModifyRecords_keeps : keys.

Lemma sourceCouldNotFindRecords_keeps s0 s accountId type ids :
  keeps s0 s ->
  returns (keeps s0) id (sourceCouldNotFindRecords s accountId type ids).
Proof. unfold sourceCouldNotFindRecords. keys. Qed.
#[local] Hint Resolve sourceCouldNotFindRecords_keeps : keys.

Lemma renameId_keeps s0 s accountId type k newId :
  keeps s0 s ->
  keeps s0 (renameId s accountId type k newId).
Proof. unfold renameId. keys. Qed.
#[local] Hint Resolve renameId_keeps : keys.

Lemma fetchedPartialRecord_keeps s0 s accountId type idsAreSKs item :
  keeps s0 s ->
  returns (keeps s0) id (fetchedPartialRecord typeInfo accountId type idsAreSKs s item).
Proof. unfold fetchedPartialRecord. keys. Qed.
#[local] Hint Resolve fetchedPartialRecord_keeps : keys.

Lemma sourceDidFetchPartialRecords_keeps s0 s accountId type updates idsAreSKs :
  keeps s0 s ->
  returns (keeps s0) id (sourceDidFetchPartialRecords typeInfo s accountId type updates idsAreSKs).
Proof. unfold sourceDidFetchPartialRecords. keys. Qed.
#[local] Hint Resolve sourceDidFetchPartialRecords_keeps : keys.

Lemma fetchedRecord_keeps s0 (acc : Store * gset string * list (string * option (list (string * Value)))) accountId type now data :
  keeps s0 acc.1.1 ->
  returns (keeps s0) (fun a => a.1.1) (fetchedRecord typeInfo accountId type now acc data).
Proof. unfold fetchedRecord. keys. Qed.
#[local] Hint Resolve fetchedRecord_keeps : keys.

Lemma sourceDidFetchRecords_keeps s0 s accountId type records state isAll now :
  keeps s0 s ->
  returns (keeps s0) id (sourceDidFetchRecords typeInfo s accountId type records state isAll now).
Proof. unfold sourceDidFetchRecords. keys. Qed.
#[local] Hint Resolve sourceDidFetchRecords_keeps : keys.

Lemma sourceDidFetchUpdates_keeps s0 s accountId type changed destroyed oldState newState :
  keeps s0 s ->
  returns (keeps s0) id (sourceDidFetchUpdates s accountId type changed destroyed oldState newState).
Proof. unfold sourceDidFetchUpdates. keys. Qed.
#[local] Hint Resolve sourceDidFetchUpdates_keeps : keys.

Lemma sourceCommitDidChangeState_keeps s0 s accountId type oldState newState :
  keeps s0 s ->
  returns (keeps s0) id (sourceCommitDidChangeState s accountId type oldState newState).
Proof. unfold sourceCommitDidChangeState. keys. Qed.
#[local] Hint Resolve sourceCommitDidChangeState_keeps : keys.

Lemma shouldRevert_keeps s0 s isPermanent errors i :
  keeps s0 s ->
  returns (keeps s0) fst (shouldRevert s isPermanent errors i).
Proof. unfold shouldRevert. keys. Qed.
#[local] Hint Resolve shouldRevert_keeps : keys.

Lemma sourceDidCommitCreate_keeps s0 s skToPartialData :
  keeps s0 s ->
  returns (keeps s0) id (sourceDidCommitCreate typeInfo s skToPartialData).
Proof. unfold sourceDidCommitCreate. keys. Qed.
#[local] Hint Resolve sourceDidCommitCreate_keeps : keys.

Lemma sourceDidNotCreate_keeps s0 s storeKeys isPermanent errors :
  keeps s0 s ->
  returns (keeps s0) id (sourceDidNotCreate s storeKeys isPermanent errors).
Proof. unfold sourceDidNotCreate. keys. Qed.
#[local] Hint Resolve sourceDidNotCreate_keeps : keys.

Lemma sourceDidCommitUpdate_keeps s0 s storeKeys :
  keeps s0 s ->
  keeps s0 (sourceDidCommitUpdate s storeKeys).
Proof. unfold sourceDidCommitUpdate. keys. Qed.
#[local] Hint Resolve sourceDidCommitUpdate_keeps : keys.

Lemma sourceDidNotUpdate_keeps s0 s storeKeys isPermanent errors :
  keeps s0 s ->
  returns (keeps s0) id (sourceDidNotUpdate typeInfo s storeKeys isPermanent errors).
Proof. unfold sourceDidNotUpdate. keys. Qed.
#[local] Hint Resolve sourceDidNotUpdate_keeps : keys.

Lemma sourceDidCommitDestroy_keeps s0 s storeKeys :
  keeps s0 s ->
  keeps s0 (sourceDidCommitDestroy s storeKeys).
Proof. unfold sourceDidCommitDestroy. keys. Qed.
#[local] Hint Resolve sourceDidCommitDestroy_keeps : keys.

Lemma sourceDidNotDestroy_keeps s0 s storeKeys isPermanent errors :
  keeps s0 s ->
  returns (keeps s0) id (sourceDidNotDestroy typeInfo s storeKeys isPermanent errors).
Proof. unfold sourceDidNotDestroy. keys. Qed.
#[local] Hint Resolve sourceDidNotDestroy_keeps : keys.

Lemma materialiseRecord_keeps s0 s k :
  keeps s0 s ->
  returns (keeps s0) id (materialiseRecord s k).
Proof. unfold materialiseRecord. keys. Qed.
#[local] Hint Resolve materialiseRecord_keeps : keys.

Lemma getRecordFromStoreKey_keeps s0 s k doNotFetch now :
  keeps s0 s ->
  returns (keeps s0) id (getRecordFromStoreKey s k doNotFetch now).
Proof. unfold getRecordFromStoreKey. keys. Qed.
#[local] Hint Resolve getRecordFromStoreKey_keeps : keys.



End WithSchema.

(** *** The scenarios *)

Import Scenario.

(** A second [createRecord] for the loaded record, and a write to a store
    key that has no record. *)
Lemma programming_errors_witness :
  createRecord Scenario.loaded "k1" (Some [("a", VNum 5)]) ""
  = emit (DidError "O.Store Error: Cannot create existing record")
      Scenario.loaded /\
  updateData Scenario.initial "k1" (Some [("a", VNum 5)]) true
  = Ok (emit (DidError "O.Store Error: Cannot write to unready record")
          Scenario.initial, false).
Proof.
  split.
  - apply (programming_errors_are_reported_and_change_nothing
             Scenario.loaded "k1" (Some [("a", VNum 5)]) "");
      vm_compute; discriminate.
  - destruct (programming_errors_are_reported_and_change_nothing
                Scenario.initial "k1" (Some [("a", VNum 5)]) "")
      as [_ H].
    destruct H as (s' & H1 & H2 & _); [left; vm_compute; reflexivity|].
    rewrite H1, H2. reflexivity.
Defined.

(** The loaded record is unloaded; the changed one and the observed one are
    not. *)
Lemma unloadRecord_witness :
  skToData (unloadRecord Scenario.loaded "k1").1 !! "k1" = None /\
  skToStatus (unloadRecord Scenario.loaded "k1").1 !! "k1" = None /\
  unloadRecord Scenario.dirty "k1" = (Scenario.dirty, false) /\
  unloadRecord Scenario.observed "k1" = (Scenario.observed, false).
Proof.
  destruct (unloadRecord_is_safe Scenario.loaded "k1") as (H & _).
  destruct H as (_ & _ & _ & H1 & H2 & _); [vm_compute; reflexivity|].
  destruct (unloadRecord_is_safe Scenario.dirty "k1") as (_ & G & _).
  destruct (unloadRecord_is_safe Scenario.observed "k1") as (_ & K & _).
  split; [exact H1|]. split; [exact H2|]. split.
  - apply G. left. vm_compute. reflexivity.
  - apply K. right. eexists. split; vm_compute; reflexivity.
Defined.

(** S2, from the theorem. *)
Lemma s2_with_and_without_rebase :
  (exists s',
     sourceDidFetchPartialRecords typeInfo (s2 dirty) "p" "T"
       [("x", Some patch99)] false = Ok s' /\
     skToData s' !! "k1" = Some [("a", VNum 2); ("b", VNum 9)] /\
     skToCommitted s' !! "k1" = Some [("a", VNum 9); ("b", VNum 9)] /\
     JsObject.get (skToChanged s') "k1" = Some [("a", true)] /\
     getStatus s' "k1" = Z.lor READY DIRTY) /\
  (exists s',
     sourceDidFetchPartialRecords typeInfo (s2 dirtyWithoutRebase) "p" "T"
       [("x", Some patch99)] false = Ok s' /\
     skToData s' !! "k1" = Some [("a", VNum 9); ("b", VNum 9)] /\
     has (getStatus s' "k1") DIRTY = false /\
     getStatus s' "k1" = READY /\
     skToCommitted s' !! "k1" = None /\
     JsObject.get (skToChanged s') "k1" = None).
Proof.
  split.
  - eapply (partial_update_of_a_dirty_record typeInfo (s2 dirty)
              "p" "T" "x" "k1");
      solve [discriminate | vm_compute; reflexivity | reflexivity].
  - eapply (partial_update_of_a_dirty_record typeInfo (s2 dirtyWithoutRebase)
              "p" "T" "x" "k1");
      solve [discriminate | vm_compute; reflexivity | reflexivity].
Defined.

(** S2 as the store reaches it: the data hash of the record holds its id and
    its account as well. *)
Example s2_as_reached :
  (exists s',
     sourceDidFetchPartialRecords typeInfo dirty "p" "T"
       [("x", Some patch99)] false = Ok s' /\
     skToData s' !! "k1"
     = Some [("id", VStr "x"); ("a", VNum 2); ("b", VNum 9);
             ("accountId", VStr "p")] /\
     skToCommitted s' !! "k1"
     = Some [("id", VStr "x"); ("a", VNum 9); ("b", VNum 9);
             ("accountId", VStr "p")] /\
     JsObject.get (skToChanged s') "k1" = Some [("a", true)] /\
     getStatus s' "k1" = Z.lor READY DIRTY) /\
  (exists s',
     sourceDidFetchPartialRecords typeInfo dirtyWithoutRebase "p" "T"
       [("x", Some patch99)] false = Ok s' /\
     skToData s' !! "k1"
     = Some [("id", VStr "x"); ("a", VNum 9); ("b", VNum 9);
             ("accountId", VStr "p")] /\
     getStatus s' "k1" = READY /\
     skToCommitted s' !! "k1" = None /\
     JsObject.get (skToChanged s') "k1" = None).
Proof.
  split; (eexists; split; [vm_compute; reflexivity|]);
    repeat split; vm_compute; reflexivity.
Qed.

(** C4. The record [x] is READY and nothing is changed, created or
    destroyed. The client sets the key [c], which the data lacks, and then
    discards the changes: the data still has [c], the record is still DIRTY
    and [c] is still marked as changed, while [hasChanges] is false. *)
Theorem discardChanges_keeps_a_new_key :
  getStatus loaded "k1" = READY /\
  skToChanged loaded = [] /\ created loaded = [] /\ destroyed loaded = [] /\
  JsObject.get (default [] (skToData loaded !! "k1")) "c" = None /\
  exists s1 s2,
    updateData loaded "k1" (Some [("c", VNum 2)]) true = Ok (s1, true) /\
    discardChanges typeInfo s1 = Ok s2 /\
    skToData s2 !! "k1"
    = Some (default [] (skToData loaded !! "k1") ++ [("c", VNum 2)]) /\
    skToData s2 !! "k1" <> skToData loaded !! "k1" /\
    getStatus s2 "k1" = Z.lor READY DIRTY /\
    skToChanged s2 = [("k1", [("c", true)])] /\
    hasChanges s2 = false.
Proof.
  repeat (split; [vm_compute; reflexivity|]).
  eexists. eexists.
  split; [vm_compute; reflexivity|].
  split; [vm_compute; reflexivity|].
  split; [vm_compute; reflexivity|].
  split; [vm_compute; discriminate|].
  repeat split; vm_compute; reflexivity.
Qed.

(** [revertData], which a record calls to discard its own changes, gives the
    new key its default value and the record its status back. *)
Example revertData_resets_a_new_key :
  exists s2,
    revertData typeInfo patchedWithNewKey "k1" = Ok s2 /\
    skToData s2 !! "k1"
    = Some (default [] (skToData loaded !! "k1") ++ [("c", VNum 0)]) /\
    getStatus s2 "k1" = READY /\
    skToChanged s2 = [].
Proof.
  eexists. split; [vm_compute; reflexivity|].
  repeat split; vm_compute; reflexivity.
Qed.

(** A patch of a key that the data has is taken back. *)
Example discardChanges_of_a_known_key :
  exists s2,
    discardChanges typeInfo dirty = Ok s2 /\
    skToData s2 !! "k1" = skToData loaded !! "k1" /\
    getStatus s2 "k1" = READY /\
    skToChanged s2 = [].
Proof.
  eexists. split; [vm_compute; reflexivity|].
  repeat split; vm_compute; reflexivity.
Qed.







(** [addAccount] with [replaceAccountId] gives the store keys of the account
    that it replaces to the new account. *)
Example replaced_account_takes_the_keys :
  skToAccountId loaded !! "k1" = Some "p" /\
  skToAccountId (addAccount loaded "q" "p" None) !! "k1" = Some "q".
Proof. split; vm_compute; reflexivity. Qed.

End StoreFacts.
